(** * Termux AI Assistant: the sandboxed runner and the generator mediator

    A shallow embedding of [termux_ai_assistant/code_executor.py] and
    [termux_ai_assistant/ai_client.py].  Python statements become
    computations in a state-and-exception monad; the operating system
    (file system, child processes, temporary-name generator) and the
    remote generation backend are explicit environments. *)

From Stdlib Require Import ZArith QArith String Ascii List.
From stdpp Require Import gmap list.

Local Open Scope Z_scope.

(** ** Python strings

    A Python [str] is a sequence of Unicode code points. *)

Abbreviation str := (list N).

Definition lit (s : string) : str := map N_of_ascii (list_ascii_of_string s).

Definition nl : str := [10%N].

(** [str.isspace] on one code point (CPython's [_PyUnicode_IsWhitespace]). *)
Definition isspace (c : N) : bool :=
  ((9 <=? c) && (c <=? 13) || (28 <=? c) && (c <=? 32)
   || (c =? 133) || (c =? 160) || (c =? 5760)
   || (8192 <=? c) && (c <=? 8202)
   || (c =? 8232) || (c =? 8233) || (c =? 8239) || (c =? 8287)
   || (c =? 12288))%N.

Fixpoint lstrip (s : str) : str :=
  match s with
  | c :: s' => if isspace c then lstrip s' else s
  | [] => []
  end.

Definition rstrip (s : str) : str := rev (lstrip (rev s)).

(** [str.strip()] without argument. *)
Definition strip (s : str) : str := rstrip (lstrip s).

(** A text of whitespace only. *)
Definition blank (s : str) : Prop := Forall (fun c => isspace c = true) s.

(** Lone surrogates cannot be encoded as UTF-8. *)
Definition encodable (s : str) : bool :=
  forallb (fun c => ((c <? 55296) || (57343 <? c) && (c <? 1114112))%N) s.

(** ** Exceptions *)

Inductive pyclass :=
| BaseException | Exception | KeyboardInterrupt | SystemExit
| OSError | FileNotFoundError | FileExistsError | NotADirectoryError
| IsADirectoryError | PermissionError | ConnectionError
| SubprocessError | TimeoutExpired
| ValueError | UnicodeError | UnicodeEncodeError
| TypeError | AttributeError.

Definition superclass (c : pyclass) : option pyclass :=
  match c with
  | BaseException => None
  | Exception | KeyboardInterrupt | SystemExit => Some BaseException
  | OSError | SubprocessError | ValueError | TypeError | AttributeError =>
      Some Exception
  | FileNotFoundError | FileExistsError | NotADirectoryError
  | IsADirectoryError | PermissionError | ConnectionError => Some OSError
  | TimeoutExpired => Some SubprocessError
  | UnicodeError => Some ValueError
  | UnicodeEncodeError => Some UnicodeError
  end.

Global Instance pyclass_eq_dec : EqDecision pyclass.
Proof. solve_decision. Defined.

Fixpoint issubclass_upto (depth : nat) (c d : pyclass) : bool :=
  if decide (c = d) then true
  else match depth, superclass c with
       | S k, Some c' => issubclass_upto k c' d
       | _, _ => false
       end.

(** The hierarchy above is at most four levels deep. *)
Definition issubclass : pyclass -> pyclass -> bool := issubclass_upto 4.

(** An exception instance: its class and the text [str(e)] evaluates to. *)
Record exn := Exn { exn_class : pyclass; exn_str : str }.

Definition isinstance (e : exn) (c : pyclass) : bool :=
  issubclass (exn_class e) c.

(** ** Computations that may raise *)

Inductive completion (A : Type) :=
| Return (a : A)
| Raise (e : exn).
Arguments Return {A} a.
Arguments Raise {A} e.

Definition M (S A : Type) : Type := S -> completion A * S.

Definition ret {S A} (a : A) : M S A := fun s => (Return a, s).

Definition raise {S A} (e : exn) : M S A := fun s => (Raise e, s).

Definition bind {S A B} (m : M S A) (k : A -> M S B) : M S B :=
  fun s => match m s with
           | (Return a, s') => k a s'
           | (Raise e, s') => (Raise e, s')
           end.

Notation "'let*' x ':=' m 'in' k" := (bind m (fun x => k))
  (at level 10, x name, m at level 100, k at level 200,
   format "'[v' 'let*'  x  ':='  m  'in' '/' k ']'").

(** An [except cls as e: ...] clause. *)
Record clause (S A : Type) := Except { on : pyclass; handler : exn -> M S A }.
Arguments Except {S A} on handler.
Arguments on {S A} c.
Arguments handler {S A} c.

(** The first clause whose class the exception is an instance of handles
    it; with no such clause the exception propagates. *)
Fixpoint dispatch {S A} (e : exn) (cs : list (clause S A)) : M S A :=
  match cs with
  | c :: cs' => if isinstance e (on c) then handler c e else dispatch e cs'
  | [] => raise e
  end.

Definition try_ {S A} (body : M S A) (cs : list (clause S A)) : M S A :=
  fun s => match body s with
           | (Return a, s') => (Return a, s')
           | (Raise e, s') => dispatch e cs s'
           end.

(** A lifted pure completion (an environment call without state). *)
Definition lift {S A} (c : completion A) : M S A := fun s => (c, s).

(** ** The operating system

    An absolute path is the list of its components; the file system is a
    finite map from the paths of regular files to their text and a finite
    set of directories.  The root directory always exists. *)

Abbreviation path := (list str).

Record fs := Fs { files : gmap path str; dirs : gset path }.

Definition is_file (f : fs) (p : path) : bool :=
  bool_decide (is_Some (files f !! p)).

Definition is_dir (f : fs) (p : path) : bool :=
  match p with
  | [] => true
  | _ => bool_decide (p ∈ dirs f)
  end.

Definition parent (p : path) : path := removelast p.

Fixpoint prefixes (p : path) : list path :=
  match p with
  | [] => [[]]
  | c :: q => [] :: map (cons c) (prefixes q)
  end.

Definition render (p : path) : str :=
  match p with
  | [] => lit "/"
  | _ => concat (map (fun c => lit "/" ++ c) p)
  end.

Definition os_error (c : pyclass) (errno : string) (p : path) : exn :=
  Exn c (lit errno ++ lit ": '" ++ render p ++ lit "'").

Definition ENOENT := os_error FileNotFoundError "[Errno 2] No such file or directory".
Definition EEXIST := os_error FileExistsError "[Errno 17] File exists".
Definition ENOTDIR := os_error NotADirectoryError "[Errno 20] Not a directory".
Definition EISDIR := os_error IsADirectoryError "[Errno 21] Is a directory".

(** [os.makedirs(p, exist_ok=...)]: the leaf and every missing ancestor
    become directories; a regular file in the way is an error. *)
Definition os_makedirs (p : path) (exist_ok : bool) : M fs unit :=
  fun f =>
    match find (is_file f) (prefixes p) with
    | Some q => (Raise (if decide (q = p) then EEXIST p else ENOTDIR p), f)
    | None =>
        if is_dir f p && negb exist_ok then (Raise (EEXIST p), f)
        else (Return tt, Fs (files f) (dirs f ∪ list_to_set (prefixes p)))
    end.

(** [os.open(p, O_CREAT | O_EXCL | ...)]: creates an empty regular file,
    atomically failing when the name is taken; the directory part of the
    path is resolved first. *)
Definition os_open_excl (p : path) : M fs unit :=
  fun f =>
    if is_file f (parent p) then (Raise (ENOTDIR p), f)
    else if negb (is_dir f (parent p)) then (Raise (ENOENT p), f)
    else if is_file f p || is_dir f p then (Raise (EEXIST p), f)
    else (Return tt, Fs (<[p := []]> (files f)) (dirs f)).

(** [os.unlink(p)]. *)
Definition os_unlink (p : path) : M fs unit :=
  fun f =>
    if is_file f p then (Return tt, Fs (delete p (files f)) (dirs f))
    else if is_dir f p then (Raise (EISDIR p), f)
    else (Raise (ENOENT p), f).

(** A child process, as the parent observes it: how long it runs before
    exiting on its own ([None]: it never does), what it has done to the
    file system after a given time, its captured streams and return code
    (on POSIX [-n] when signal [n] ended it), and the time, if any, at
    which an interrupt signal reaches the waiting parent (Ctrl-C at the
    shared terminal, or the child signalling its parent). *)
Record child := Child {
  runtime : option Q;
  writes : Q -> fs -> fs;
  out : str;
  err : str;
  exit_status : Z;
  sigint : option Q
}.

Record env := Env {
  home : path;
  sys_executable : path;
  (** the names drawn by [tempfile._RandomNameSequence] *)
  rand_name : nat -> str;
  (** what running [argv] does, given the file system it starts in *)
  exec : list path -> fs -> child
}.

Record world := World {
  w_fs : fs;
  w_rand : nat;
  w_alive : gset nat;
  w_next_pid : nat
}.

Definition on_fs {A} (m : M fs A) : M world A :=
  fun w => let '(r, f) := m (w_fs w) in
           (r, World f (w_rand w) (w_alive w) (w_next_pid w)).

Section OS.
Variable E : env.

(** *** tempfile *)

Definition TMP_MAX : nat := N.to_nat 10000.

Definition next_name : M world str :=
  fun w => (Return (rand_name E (w_rand w)),
            World (w_fs w) (S (w_rand w)) (w_alive w) (w_next_pid w)).

(** [tempfile._mkstemp_inner]: draw names until one can be created
    exclusively. *)
Fixpoint _mkstemp_inner (attempts : nat) (dir : path) (pre suf : str)
  : M world path :=
  match attempts with
  | O => raise (Exn FileExistsError
                  (lit "[Errno 17] No usable temporary file name found"))
  | S k =>
      let* name := next_name in
      let file := dir ++ [pre ++ name ++ suf] in
      try_ (let* _ := on_fs (os_open_excl file) in ret file)
           [Except FileExistsError
              (fun _ => _mkstemp_inner k dir pre suf)]
  end.

(** An open text file; writes go through to the file system. *)
Record TextIO := { name : path }.

(** [tempfile.NamedTemporaryFile(mode='w', suffix=..., dir=...,
    delete=False)] *)
Definition NamedTemporaryFile (suffix : str) (dir : path) : M world TextIO :=
  let* file := _mkstemp_inner TMP_MAX dir (lit "tmp") suffix in
  ret {| name := file |}.

(** [f.write(s)]; the text of the encoding error is abridged. *)
Definition write (f : TextIO) (s : str) : M world unit :=
  if encodable s then
    on_fs (fun d => (Return tt,
                     Fs (alter (fun c => c ++ s) (name f) (files d)) (dirs d)))
  else raise (Exn UnicodeEncodeError
                (lit "'utf-8' codec can't encode character: surrogates not allowed")).

Definition flush (f : TextIO) : M world unit := ret tt.

Definition close (f : TextIO) : M world unit := ret tt.

(** [with ctx as f: body]; the file is closed on both ways out, and [f]
    stays bound afterwards. *)
Definition with_ {A} (ctx : M world TextIO) (body : TextIO -> M world A)
  : M world TextIO :=
  let* f := ctx in
  fun w => match body f w with
           | (Return _, w') => (let* _ := close f in ret f) w'
           | (Raise e, w') => (let* _ := close f in raise e) w'
           end.

(** *** subprocess *)

Record Popen := { pid : nat; run : child }.

Inductive event :=
| Exited (d : Q)
| Expired
| Interrupted (s : Q).

Record CompletedProcess := {
  cp_stdout : str;
  cp_stderr : str;
  cp_returncode : Z
}.

Definition spawn (args : list path) : M world Popen :=
  fun w => (Return {| pid := w_next_pid w; run := exec E args (w_fs w) |},
            World (w_fs w) (w_rand w) (w_alive w ∪ {[w_next_pid w]})
                  (S (w_next_pid w))).

Definition ran (p : Popen) (t : Q) (w : world) : world :=
  World (writes (run p) t (w_fs w)) (w_rand w) (w_alive w) (w_next_pid w).

Definition gone (p : Popen) (w : world) : world :=
  World (w_fs w) (w_rand w) (w_alive w ∖ {[pid p]}) (w_next_pid w).

(** What ends the parent's wait for [c]: whichever comes first of the
    child's exit, the timeout and an interrupt. *)
Definition awaited (c : child) (timeout : Q) : event :=
  let unattended :=
    match runtime c with
    | Some d => if Qle_bool d timeout then Exited d else Expired
    | None => Expired
    end in
  match sigint c, unattended with
  | Some s, Exited d => if Qle_bool d s then Exited d else Interrupted s
  | Some s, _ => if Qle_bool timeout s then Expired else Interrupted s
  | None, _ => unattended
  end.

(** [Popen.communicate(timeout=...)]; the text of [TimeoutExpired] is
    abridged, the runner never reads it. *)
Definition communicate (p : Popen) (timeout : Q) : M world (str * str) :=
  fun w =>
    match awaited (run p) timeout with
    | Exited d => (Return (out (run p), err (run p)), gone p (ran p d w))
    | Expired => (Raise (Exn TimeoutExpired (lit "Command timed out")),
                  ran p timeout w)
    | Interrupted s => (Raise (Exn KeyboardInterrupt []), ran p s w)
    end.

Definition kill (p : Popen) : M world unit :=
  fun w => (Return tt, gone p w).

Definition wait (p : Popen) : M world Z :=
  fun w => (Return (exit_status (run p)), gone p w).

(** [subprocess.run(args, capture_output=True, text=True,
    timeout=timeout)]: whatever stops the wait, the child is killed and
    reaped before the exception goes on. *)
Definition subprocess_run (args : list path) (timeout : Q)
  : M world CompletedProcess :=
  let* process := spawn args in
  let* streams :=
    try_ (communicate process timeout)
         [Except BaseException
            (fun exc => let* _ := kill process in
                        let* _ := wait process in
                        raise exc)] in
  let* retcode := wait process in
  ret {| cp_stdout := fst streams; cp_stderr := snd streams;
         cp_returncode := retcode |}.

End OS.

(** ** code_executor.py *)

Module CodeExecutor.

(** The dictionary [execute_code] returns, with its three fixed keys. *)
Record result := Result {
  stdout : str;
  stderr : str;
  returncode : Z
}.

Record t := { workspace_dir : path }.

Section Methods.
Variable E : env.

Definition _ensure_workspace (self : t) : M world unit :=
  on_fs (os_makedirs (workspace_dir self) true).

Definition __init__ (workspace_dir : option path) : M world t :=
  let self :=
    {| workspace_dir :=
         match workspace_dir with
         | Some d => d
         | None => home E ++ [lit ".termux_ai_assistant"]
         end |} in
  let* _ := _ensure_workspace self in
  ret self.

(** Lines 22-29: the code goes into a fresh [.py] file of the
    workspace, which is kept when the file object is closed. *)
Definition scratch_file (self : t) (code : str) : M world TextIO :=
  with_ (NamedTemporaryFile E (lit ".py") (workspace_dir self))
    (fun temp_file =>
       let* _ := write temp_file code in
       flush temp_file).

Definition timed_out : result :=
  {| stdout := []; stderr := lit "Execution timed out"; returncode := -1 |}.

Definition failed (e : exn) : result :=
  {| stdout := []; stderr := exn_str e; returncode := -1 |}.

Definition execute_code (self : t) (code : str) (timeout : Q)
  : M world result :=
  try_
    (let* temp_file := scratch_file self code in
     let* result :=
       subprocess_run E [sys_executable E; name temp_file] timeout in
     let* _ := on_fs (os_unlink (name temp_file)) in
     ret {| stdout := cp_stdout result;
            stderr := cp_stderr result;
            returncode := cp_returncode result |})
    [Except TimeoutExpired (fun _ => ret timed_out);
     Except Exception (fun e => ret (failed e))].

End Methods.

End CodeExecutor.

(** ** ai_client.py *)

Module AIClient.

(** What [model.predict] hands back; [text] is [None] when the response
    carries no text. *)
Record response := { text : option str }.

(** The credential loader and the Vertex AI service.  [predict n q] is
    the service's answer to prompt [q] when it is the [n]-th request it
    receives. *)
Record backend := Backend {
  load_credentials_from_file : str -> completion (str * str);
  aiplatform_init : str -> completion unit;
  aiplatform_Model : str -> completion str;
  predict : nat -> str -> completion response
}.

(** The requests that went out to the service, oldest first. *)
Record net := { sent : list str }.

Record t := { credentials_path : str }.

Section Methods.
Variable B : backend.

Definition _initialize_client (self : t) : M net unit :=
  try_
    (let* cp := lift (load_credentials_from_file B (credentials_path self)) in
     lift (aiplatform_init B (fst cp)))
    [Except Exception
       (fun e => raise (Exn Exception
                          (lit "Failed to initialize AI client: " ++ exn_str e)))].

Definition __init__ (credentials_path : str) : M net t :=
  let self := {| credentials_path := credentials_path |} in
  let* _ := _initialize_client self in
  ret self.

Definition model_predict (model : str) (q : str) : M net response :=
  fun s => (predict B (length (sent s)) q, {| sent := sent s ++ [q] |}).

Definition indent : str := lit "            ".

(** The f-string of lines 27-33. *)
Definition formatted_prompt (prompt : str) : str :=
  nl ++ indent ++ lit "Generate Python code for the following request:"
  ++ nl ++ indent ++ prompt
  ++ nl ++ indent
  ++ nl ++ indent ++ lit "Consider that this code will run in Termux on Android."
  ++ nl ++ indent ++ lit "Only include the code implementation, no explanations."
  ++ nl ++ indent.

Definition no_strip : exn :=
  Exn AttributeError (lit "'NoneType' object has no attribute 'strip'").

Definition _extract_code (self : t) (response_text : option str) : M net str :=
  match response_text with
  | Some s => ret (strip s)
  | None => raise no_strip
  end.

Definition generation_failed (e : exn) : exn :=
  Exn Exception (lit "Code generation failed: " ++ exn_str e).

(** The coroutine's body, as it runs when awaited. *)
Definition generate_code (self : t) (prompt : str) : M net str :=
  try_
    (let* model := lift (aiplatform_Model B (lit "gemini-1.5-pro")) in
     let* response := model_predict model (formatted_prompt prompt) in
     _extract_code self (text response))
    [Except Exception (fun e => raise (generation_failed e))].

(** The first fault, if any, that the three steps of the [try] block
    meet when the service has already received [n] requests. *)
Definition backend_fault (n : nat) (prompt : str) : option exn :=
  match aiplatform_Model B (lit "gemini-1.5-pro") with
  | Raise e => Some e
  | Return _ =>
      match predict B n (formatted_prompt prompt) with
      | Raise e => Some e
      | Return {| text := None |} => Some no_strip
      | Return {| text := Some _ |} => None
      end
  end.

End Methods.

End AIClient.

(** ** A sample environment

    A device whose interpreter understands a handful of scripts; it is
    used to run the definitions on concrete inputs. *)

Module Sample.

Definition usr_bin_python : path := [lit "usr"; lit "bin"; lit "python3"].

Definition hello : str := lit "print('hi')".
Definition sleeper : str := lit "import time; time.sleep(60)".
Definition exit3 : str := lit "import sys; sys.exit(3)".
Definition self_delete : str :=
  lit "import os; os.unlink(__file__); print('hi')".
Definition hangup : str :=
  lit "import os, signal; os.kill(os.getpid(), signal.SIGHUP)".
Definition interrupt_parent : str :=
  lit "import os, signal, time; os.kill(os.getppid(), signal.SIGINT); time.sleep(1)".

Definition quiet (d : Q) (o e : str) (rc : Z) : child :=
  {| runtime := Some d; writes := fun _ f => f; out := o; err := e;
     exit_status := rc; sigint := None |}.

Definition interpret (script : path) (src : str) : child :=
  if decide (src = hello) then quiet (1 # 10) (lit "hi" ++ nl) [] 0
  else if decide (src = sleeper) then quiet 60%Q [] [] 0
  else if decide (src = exit3) then quiet (1 # 10) [] [] 3
  else if decide (src = self_delete) then
    {| runtime := Some (1 # 10);
       writes := fun _ f => Fs (delete script (files f)) (dirs f);
       out := lit "hi" ++ nl; err := []; exit_status := 0; sigint := None |}
  else if decide (src = hangup) then quiet (1 # 10) [] [] (-1)
  else if decide (src = interrupt_parent) then
    {| runtime := Some 1%Q; writes := fun _ f => f; out := []; err := [];
       exit_status := -2; sigint := Some 0%Q |}
  else quiet (1 # 10) [] (lit "SyntaxError: invalid syntax" ++ nl) 1.

Definition python (argv : list path) (f : fs) : child :=
  match argv with
  | [_; script] =>
      match files f !! script with
      | Some src => interpret script src
      | None =>
          quiet (1 # 10) []
            (lit "python3: can't open file" ++ nl) 2
      end
  | _ => quiet 0%Q [] [] 0
  end.

Definition device : env :=
  {| home := [lit "data"; lit "home"];
     sys_executable := usr_bin_python;
     rand_name := fun n => lit "abcd000" ++ [N.of_nat (48 + n mod 10)];
     exec := python |}.

Definition workspace : path := [lit "data"; lit "home"; lit ".termux_ai_assistant"].

Definition self : CodeExecutor.t := {| CodeExecutor.workspace_dir := workspace |}.

(** A fresh device: only the home directory exists. *)
Definition boot : world :=
  {| w_fs := Fs ∅ {[ [lit "data"]; [lit "data"; lit "home"] ]};
     w_rand := 0; w_alive := ∅; w_next_pid := 100 |}.

(** The device once the runner has been constructed. *)
Definition ready : world :=
  snd (CodeExecutor.__init__ device None boot).

Definition scratch0 : path := workspace ++ [lit "tmpabcd0000.py"].


(** Backends: one that answers every request with [answer], one whose
    requests fail in the network. *)
Definition answering (answer : option str) : AIClient.backend :=
  {| AIClient.load_credentials_from_file := fun _ => Return (lit "creds", lit "proj");
     AIClient.aiplatform_init := fun _ => Return tt;
     AIClient.aiplatform_Model := fun m => Return m;
     AIClient.predict := fun _ _ => Return {| AIClient.text := answer |} |}.

Definition offline : AIClient.backend :=
  {| AIClient.load_credentials_from_file := fun _ => Return (lit "creds", lit "proj");
     AIClient.aiplatform_init := fun _ => Return tt;
     AIClient.aiplatform_Model := fun m => Return m;
     AIClient.predict := fun _ _ =>
       Raise (Exn ConnectionError (lit "503 failed to connect")) |}.

Definition client : AIClient.t :=
  {| AIClient.credentials_path := lit "/data/home/.config/termux_ai_assistant/credentials.json" |}.

Definition fenced : str :=
  lit "  ```python" ++ nl ++ lit "print(1)" ++ nl ++ lit "```" ++ nl.

Definition idle : AIClient.net := {| AIClient.sent := [] |}.

End Sample.



(** ** The ways out of [execute_code]

    Each constructor is one exit of the method, named by what the three
    steps of its [try] block did. *)

Import CodeExecutor.

Definition reported (cp : CompletedProcess) : result :=
  {| stdout := cp_stdout cp; stderr := cp_stderr cp;
     returncode := cp_returncode cp |}.

Inductive exit_path (E : env) (self : CodeExecutor.t) (code : str)
    (timeout : Q) (w : world) : completion result -> world -> Prop :=
| no_scratch e w1 :
    scratch_file E self code w = (Raise e, w1) ->
    exit_path E self code timeout w (Return (failed e)) w1
| ran_out f w1 e w2 :
    scratch_file E self code w = (Return f, w1) ->
    subprocess_run E [sys_executable E; name f] timeout w1 = (Raise e, w2) ->
    exn_class e = TimeoutExpired ->
    exit_path E self code timeout w (Return timed_out) w2
| interrupted f w1 e w2 :
    scratch_file E self code w = (Return f, w1) ->
    subprocess_run E [sys_executable E; name f] timeout w1 = (Raise e, w2) ->
    exn_class e = KeyboardInterrupt ->
    exit_path E self code timeout w (Raise e) w2
| no_unlink f w1 cp w2 e w3 :
    scratch_file E self code w = (Return f, w1) ->
    subprocess_run E [sys_executable E; name f] timeout w1 = (Return cp, w2) ->
    on_fs (os_unlink (name f)) w2 = (Raise e, w3) ->
    exit_path E self code timeout w (Return (failed e)) w3
| completed f w1 cp w2 w3 :
    scratch_file E self code w = (Return f, w1) ->
    subprocess_run E [sys_executable E; name f] timeout w1 = (Return cp, w2) ->
    on_fs (os_unlink (name f)) w2 = (Return tt, w3) ->
    exit_path E self code timeout w (Return (reported cp)) w3.

(** ** utils.py *)

(** The Python values a YAML document can load to. *)
#[local] Unset Elimination Schemes.
Inductive pyobj :=
| PyNone
| PyBool (b : bool)
| PyInt (z : Z)
| PyStr (s : str)
| PyList (items : list pyobj)
| PyDict (items : list (pyobj * pyobj)).
#[local] Set Elimination Schemes.

(** The PyYAML library: [dump] is the text [yaml.dump] writes for a
    value, [safe_load] what [yaml.safe_load] makes of a text. *)
Record yaml := Yaml {
  dump : pyobj -> str;
  safe_load : str -> completion pyobj
}.

(** [Path.exists()] *)
Definition path_exists (p : path) : M world bool :=
  fun w => (Return (is_file (w_fs w) p || is_dir (w_fs w) p), w).

(** [open(p, 'w')]: the file is created, or emptied when it is there. *)
Definition open_w (p : path) : M world TextIO :=
  on_fs (fun f =>
    if is_file f (parent p) then (Raise (ENOTDIR p), f)
    else if negb (is_dir f (parent p)) then (Raise (ENOENT p), f)
    else if is_dir f p then (Raise (EISDIR p), f)
    else (Return {| name := p |}, Fs (<[p := []]> (files f)) (dirs f))).

(** [open(p)], for reading. *)
Definition open_r (p : path) : M world TextIO :=
  on_fs (fun f =>
    if is_file f (parent p) then (Raise (ENOTDIR p), f)
    else if negb (is_dir f (parent p)) then (Raise (ENOENT p), f)
    else if is_dir f p then (Raise (EISDIR p), f)
    else if is_file f p then (Return {| name := p |}, f)
    else (Raise (ENOENT p), f)).

(** [f.read()] from the start of the file. *)
Definition read (f : TextIO) : M world str :=
  fun w => (Return (default [] (files (w_fs w) !! name f)), w).

(** [with ctx as f: return body]; the file is closed on both ways out. *)
Definition with_as {A} (ctx : M world TextIO) (body : TextIO -> M world A)
  : M world A :=
  let* f := ctx in
  fun w => match body f w with
           | (Return a, w') => (let* _ := close f in ret a) w'
           | (Raise e, w') => (let* _ := close f in raise e) w'
           end.

Module Utils.

Section LoadConfig.
Variable E : env.
Variable Y : yaml.

Definition app_dir : path := home E ++ [lit ".config"; lit "termux_ai_assistant"].

Definition default_config : pyobj :=
  PyDict [(PyStr (lit "credentials_path"),
           PyStr (render (app_dir ++ [lit "credentials.json"])))].

Definition load_config : M world pyobj :=
  let config_path := app_dir ++ [lit "config.yaml"] in
  let* present := path_exists config_path in
  let* _ :=
    if negb present then
      let* _ := on_fs (os_makedirs (parent config_path) true) in
      with_as (open_w config_path) (fun f => write f (dump Y default_config))
    else ret tt in
  with_as (open_r config_path)
    (fun f => let* text := read f in lift (safe_load Y text)).

End LoadConfig.

End Utils.

(** ** terminal_ui.py *)

Module TerminalUI.

(** What the console is asked to print: a text with markup, or a
    [Syntax] object. *)
Inductive renderable :=
| Markup (s : str)
| Syntax (code lexer theme : str).

(** The device, the traffic to the backend, and everything printed so
    far, oldest first. *)
Record state := State {
  os : world;
  net : AIClient.net;
  console : list renderable
}.

(** What the user does in one round of the loop: the outcome of the
    prompt, and of the yes/no dialog if it comes to that. *)
Record turn := Turn {
  typed : completion str;
  confirmed : completion bool
}.

Record t := {
  ai_client : AIClient.t;
  code_executor : CodeExecutor.t
}.

(** How a round of the loop ends. *)
Inductive flow := Break | Continue | Fallthrough.

(** How [run] stands when the user's actions are used up: it has
    returned, or it is waiting at the prompt. *)
Inductive ending := Left | Prompting.

Definition in_os {A} (m : M world A) : M state A :=
  fun st => let '(r, w) := m (os st) in (r, State w (net st) (console st)).

Definition in_net {A} (m : M AIClient.net A) : M state A :=
  fun st => let '(r, n) := m (net st) in (r, State (os st) n (console st)).

Definition console_print (r : renderable) : M state unit :=
  fun st => (Return tt, State (os st) (net st) (console st ++ [r])).

Section Methods.
Variable E : env.
Variable B : AIClient.backend.
(** [str.lower] *)
Variable lower : str -> str.

Definition margin : str := lit "        ".

Definition help_text : str :=
  nl ++ margin ++ lit "Commands:"
  ++ nl ++ margin ++ lit "- help: Show this help message"
  ++ nl ++ margin ++ lit "- exit/quit: Exit the application"
  ++ nl ++ margin
  ++ nl ++ margin ++ lit "Usage:"
  ++ nl ++ margin ++ lit "Simply type your code generation request in natural language."
  ++ nl ++ margin ++ lit "The AI will generate the code, and you can choose to execute it."
  ++ nl ++ margin.

Definition _show_help (self : t) : M state unit :=
  console_print (Markup help_text).

(** The body of the [while True] loop, lines 26-62. *)
Definition round (self : t) (u : turn) : M state flow :=
  try_
    (let* prompt := lift (typed u) in
     if bool_decide (lower prompt ∈ [lit "exit"; lit "quit"]) then ret Break
     else if bool_decide (lower prompt = lit "help") then
       let* _ := _show_help self in
       ret Continue
     else
       let* _ := console_print (Markup (nl ++ lit "[yellow]Generating code...[/yellow]")) in
       let* code := in_net (AIClient.generate_code B (ai_client self) prompt) in
       let* _ := console_print (Markup (nl ++ lit "[green]Generated Code:[/green]")) in
       let syntax := Syntax code (lit "python") (lit "monokai") in
       let* _ := console_print syntax in
       let* yes := lift (confirmed u) in
       let* _ :=
         if yes : bool then
           let* _ := console_print (Markup (nl ++ lit "[yellow]Executing code...[/yellow]")) in
           let* result :=
             in_os (CodeExecutor.execute_code E (code_executor self) code 30%Q) in
           if (CodeExecutor.returncode result =? 0)%Z then
             let* _ := console_print (Markup (nl ++ lit "[green]Output:[/green]")) in
             console_print (Markup (CodeExecutor.stdout result))
           else
             let* _ := console_print (Markup (nl ++ lit "[red]Error:[/red]")) in
             console_print (Markup (CodeExecutor.stderr result))
         else ret tt in
       ret Fallthrough)
    [Except KeyboardInterrupt (fun _ => ret Continue);
     Except Exception
       (fun e =>
          let* _ := console_print
                      (Markup (nl ++ lit "[red]Error: " ++ exn_str e ++ lit "[/red]")) in
          ret Fallthrough)].

(** The loop, run against the user's successive turns. *)
Fixpoint rounds (self : t) (script : list turn) : M state ending :=
  match script with
  | [] => ret Prompting
  | u :: rest =>
      let* how := round self u in
      match how with
      | Break => ret Left
      | Continue | Fallthrough => rounds self rest
      end
  end.

Definition run (self : t) (script : list turn) : M state ending :=
  let* _ := console_print (Markup (lit "[bold blue]Termux AI Assistant[/bold blue]")) in
  let* _ := console_print
              (Markup (lit "Type 'exit' to quit, 'help' for commands" ++ nl)) in
  rounds self script.

End Methods.

End TerminalUI.

(** Whether a turn types one of the two commands that leave the loop. *)
Definition leaves (lower : str -> str) (u : TerminalUI.turn) : bool :=
  match TerminalUI.typed u with
  | Return p => bool_decide (lower p ∈ [lit "exit"; lit "quit"])
  | Raise _ => false
  end.




(** ** More sample data *)

Module Desk.

(** A YAML library that knows the default configuration and the empty
    document. *)
Definition tiny_yaml : yaml :=
  {| dump := fun v =>
       match v with
       | PyDict [(PyStr k, PyStr v)] => k ++ lit ": " ++ v ++ nl
       | _ => lit "{}" ++ nl
       end;
     safe_load := fun text =>
       if decide (text = []) then Return PyNone
       else if decide (text = lit "credentials_path: /data/home/.config/termux_ai_assistant/credentials.json" ++ nl)
       then Return (PyDict [(PyStr (lit "credentials_path"),
                             PyStr (lit "/data/home/.config/termux_ai_assistant/credentials.json"))])
       else Raise (Exn Exception (lit "could not parse the document")) |}.

Definition config_yaml : path :=
  [lit "data"; lit "home"; lit ".config"; lit "termux_ai_assistant"; lit "config.yaml"].

(** Lower case for the letters A to Z. *)
Definition ascii_lower (s : str) : str :=
  map (fun c => if ((65 <=? c) && (c <=? 90))%N then (c + 32)%N else c) s.

Definition ui : TerminalUI.t :=
  {| TerminalUI.ai_client := Sample.client;
     TerminalUI.code_executor := Sample.self |}.

Definition start : TerminalUI.state :=
  {| TerminalUI.os := Sample.ready; TerminalUI.net := Sample.idle;
     TerminalUI.console := [] |}.

Definition says (line : string) (yes : bool) : TerminalUI.turn :=
  {| TerminalUI.typed := Return (lit line); TerminalUI.confirmed := Return yes |}.

Definition ctrl_c : TerminalUI.turn :=
  {| TerminalUI.typed := Raise (Exn KeyboardInterrupt []);
     TerminalUI.confirmed := Return false |}.

(** A backend that answers every request with the script [code]. *)
Definition coder (code : str) : AIClient.backend := Sample.answering (Some code).

(** A device on which a regular file sits where the workspace should be. *)
Definition blocked : world :=
  {| w_fs := Fs {[ Sample.workspace := lit "notes" ]}
                {[ [lit "data"]; [lit "data"; lit "home"] ]};
     w_rand := 0; w_alive := ∅; w_next_pid := 100 |}.


(** A device whose workspace already holds a file of the user's. *)
Definition notes : path := Sample.workspace ++ [lit "notes.txt"].

Definition stocked : world :=
  {| w_fs := Fs {[ notes := lit "keep me" ]} (dirs (w_fs Sample.ready));
     w_rand := 0; w_alive := ∅; w_next_pid := 100 |}.

(** A device on which every program sleeps for a minute and writes
    nothing. *)
Definition sleepy : env :=
  {| home := [lit "data"; lit "home"];
     sys_executable := Sample.usr_bin_python;
     rand_name := fun n => lit "abcd000" ++ [N.of_nat (48 + n mod 10)];
     exec := fun _ _ => Sample.quiet 60%Q [] [] 0 |}.

(** The device after the configuration has been loaded once. *)
Definition configured : world :=
  snd (Utils.load_config Sample.device tiny_yaml Sample.boot).

(** The same device after the user emptied the configuration file. *)
Definition emptied : world :=
  {| w_fs := Fs (<[config_yaml := []]> (files (w_fs configured)))
                (dirs (w_fs configured));
     w_rand := 0; w_alive := ∅; w_next_pid := 100 |}.

(** A device on which a directory sits where the configuration file
    should be. *)
Definition misplaced : world :=
  {| w_fs := Fs ∅ {[ [lit "data"]; [lit "data"; lit "home"];
                     [lit "data"; lit "home"; lit ".config"];
                     [lit "data"; lit "home"; lit ".config"; lit "termux_ai_assistant"];
                     config_yaml ]};
     w_rand := 0; w_alive := ∅; w_next_pid := 100 |}.

(** A backend whose requests are cut short by Ctrl-C. *)
Definition interrupting : AIClient.backend :=
  {| AIClient.load_credentials_from_file := fun _ => Return (lit "creds", lit "proj");
     AIClient.aiplatform_init := fun _ => Return tt;
     AIClient.aiplatform_Model := fun m => Return m;
     AIClient.predict := fun _ _ => Raise (Exn KeyboardInterrupt []) |}.

End Desk.

(** * Properties *)

(** Splits an equation between pairs and substitutes both halves. *)
Ltac both H := apply pair_equal_spec in H; destruct H as [<- <-].

(** ** The definitions at work *)

Example strip_trims_both_ends :
  strip (lit "  print(1) " ++ nl) = lit "print(1)".
Proof. reflexivity. Qed.

Example strip_keeps_inner_whitespace :
  strip (lit " a  b ") = lit "a  b".
Proof. reflexivity. Qed.

Example no_break_space_is_whitespace : isspace 160 = true.
Proof. reflexivity. Qed.

Example backtick_is_not_whitespace : isspace 96 = false.
Proof. reflexivity. Qed.

Example missing_file_is_an_exception :
  isinstance (ENOENT [lit "tmp"]) Exception = true /\
  isinstance (ENOENT [lit "tmp"]) TimeoutExpired = false.
Proof. split; reflexivity. Qed.

Example interrupt_is_no_exception :
  isinstance (Exn KeyboardInterrupt []) Exception = false /\
  isinstance (Exn KeyboardInterrupt []) BaseException = true.
Proof. split; reflexivity. Qed.

Example makedirs_creates_ancestors :
  dirs (snd (os_makedirs [lit "a"; lit "b"] true (Fs ∅ ∅)))
  = {[ []; [lit "a"]; [lit "a"; lit "b"] ]}.
Proof. vm_compute. reflexivity. Qed.

Example hello_runs :
  fst (execute_code Sample.device Sample.self Sample.hello 30%Q Sample.ready)
  = Return {| stdout := lit "hi" ++ nl; stderr := []; returncode := 0 |}.
Proof. vm_compute. reflexivity. Qed.

Example syntax_error_is_reported :
  fst (execute_code Sample.device Sample.self (lit "print(") 30%Q Sample.ready)
  = Return {| stdout := [];
              stderr := lit "SyntaxError: invalid syntax" ++ nl;
              returncode := 1 |}.
Proof. vm_compute. reflexivity. Qed.

(** ** Exception classes *)

Lemma os_error_caught e :
  isinstance e OSError = true ->
  isinstance e TimeoutExpired = false /\ isinstance e Exception = true.
Proof.
  unfold isinstance. destruct (exn_class e); cbv; intros H; try discriminate H; auto.
Qed.

(** ** File-system calls *)

Lemma parent_child (d : path) (x : str) : parent (d ++ [x]) = d.
Proof. apply removelast_last. Qed.

Lemma os_open_excl_inv p f r f' :
  os_open_excl p f = (r, f') ->
  match r with
  | Return _ =>
      is_dir f (parent p) = true /\ files f !! p = None /\
      f' = Fs (<[p := []]> (files f)) (dirs f)
  | Raise e =>
      f' = f /\ isinstance e OSError = true /\
      (isinstance e FileExistsError = true -> is_dir f (parent p) = true)
  end.
Proof.
  unfold os_open_excl. intros H.
  destruct (is_file f (parent p)) eqn:Hpf.
  { inversion H; subst. repeat split; try reflexivity. intros D; discriminate D. }
  destruct (is_dir f (parent p)) eqn:Hpd; simpl in H.
  2:{ inversion H; subst. repeat split; try reflexivity. intros D; discriminate D. }
  destruct (is_file f p) eqn:Hf; simpl in H.
  { inversion H; subst. repeat split; reflexivity. }
  destruct (is_dir f p) eqn:Hd; simpl in H; inversion H; subst.
  { repeat split; reflexivity. }
  repeat split; try reflexivity.
  unfold is_file in Hf. apply bool_decide_eq_false in Hf.
  destruct (files f !! p) eqn:L; [|reflexivity].
  exfalso. apply Hf. eauto.
Qed.

Lemma os_unlink_inv p f r f' :
  os_unlink p f = (r, f') ->
  match r with
  | Return _ => is_file f p = true /\ f' = Fs (delete p (files f)) (dirs f)
  | Raise e => is_file f p = false /\ f' = f /\ isinstance e OSError = true
  end.
Proof.
  unfold os_unlink. intros H.
  destruct (is_file f p) eqn:Hf.
  { inversion H; subst. auto. }
  destruct (is_dir f p); inversion H; subst; auto.
Qed.


(** ** tempfile *)

Lemma _mkstemp_inner_inv E n dir pre suf w r w' :
  _mkstemp_inner E n dir pre suf w = (r, w') ->
  w_alive w' = w_alive w /\ w_next_pid w' = w_next_pid w /\
  match r with
  | Return file =>
      is_dir (w_fs w) dir = true /\ parent file = dir /\
      files (w_fs w) !! file = None /\
      w_fs w' = Fs (<[file := []]> (files (w_fs w))) (dirs (w_fs w))
  | Raise e => w_fs w' = w_fs w /\ isinstance e OSError = true
  end.
Proof.
  revert w r w'. induction n as [|k IH]; intros w r w' H.
  - inversion H; subst. auto.
  - simpl in H. unfold bind, next_name, try_, on_fs in H. simpl in H.
    set (file := dir ++ [pre ++ rand_name E (w_rand w) ++ suf]) in *.
    destruct (os_open_excl file (w_fs w)) as [r0 f0] eqn:Ho.
    apply os_open_excl_inv in Ho.
    destruct r0 as [[]|e]; simpl in H.
    + destruct Ho as (Hd & Hn & ->). inversion H; subst; simpl.
      unfold file in *. rewrite parent_child in *. split_and!; auto.
    + destruct Ho as (-> & Hos & Hex).
      destruct (isinstance e FileExistsError) eqn:Hc.
      * apply IH in H. simpl in H. exact H.
      * inversion H; subst; simpl. split_and!; auto.
Qed.

Lemma scratch_file_inv E self code w r w1 :
  scratch_file E self code w = (r, w1) ->
  w_alive w1 = w_alive w /\ w_next_pid w1 = w_next_pid w /\
  dirs (w_fs w1) = dirs (w_fs w) /\
  match r with
  | Return f =>
      is_dir (w_fs w) (workspace_dir self) = true /\
      parent (name f) = workspace_dir self /\
      files (w_fs w) !! name f = None /\
      files (w_fs w1) = <[name f := code]> (files (w_fs w))
  | Raise e =>
      isinstance e TimeoutExpired = false /\ isinstance e Exception = true /\
      (is_dir (w_fs w) (workspace_dir self) = false -> w_fs w1 = w_fs w)
  end.
Proof.
  unfold scratch_file, with_, NamedTemporaryFile, bind. intros H.
  destruct (_mkstemp_inner E TMP_MAX (workspace_dir self) (lit "tmp") (lit ".py") w)
    as [r0 w0] eqn:Hm.
  apply _mkstemp_inner_inv in Hm. destruct Hm as (Ha & Hp & Hm).
  destruct r0 as [file|e]; simpl in H.
  - destruct Hm as (Hd & Hpar & Hnone & Hfs).
    unfold write in H. destruct (encodable code) eqn:Henc.
    + unfold on_fs, flush, close, ret in H. simpl in H.
      inversion H; subst; simpl. rewrite Hfs; simpl.
      rewrite alter_insert_eq. auto 10.
    + unfold raise, close, ret in H. simpl in H.
      inversion H; subst; simpl. rewrite Hfs; simpl.
      repeat split; auto. intros D. congruence.
  - destruct Hm as (Hfs & Hos). inversion H; subst.
    apply os_error_caught in Hos. destruct Hos. rewrite Hfs. auto 10.
Qed.

(** ** subprocess *)

Lemma reaped (alive : gset nat) (p : nat) : p ∉ alive ∖ {[p]}.
Proof. rewrite elem_of_difference, elem_of_singleton. tauto. Qed.

Lemma subprocess_run_inv E args timeout w r w2 :
  subprocess_run E args timeout w = (r, w2) ->
  let c := exec E args (w_fs w) in
  (w_next_pid w ∉ w_alive w2) /\ w_next_pid w2 = S (w_next_pid w) /\
  w_rand w2 = w_rand w /\
  match awaited c timeout with
  | Exited d =>
      r = Return {| cp_stdout := out c; cp_stderr := err c;
                    cp_returncode := exit_status c |} /\
      w_fs w2 = writes c d (w_fs w)
  | Expired =>
      (exists e, r = Raise e /\ exn_class e = TimeoutExpired) /\
      w_fs w2 = writes c timeout (w_fs w)
  | Interrupted s =>
      (exists e, r = Raise e /\ exn_class e = KeyboardInterrupt) /\
      w_fs w2 = writes c s (w_fs w)
  end.
Proof.
  unfold subprocess_run, bind, spawn, try_, communicate. simpl. intros H.
  destruct (awaited (exec E args (w_fs w)) timeout) as [d| |s];
    simpl in H; both H; simpl; split_and!; eauto using reaped.
Qed.

(** ** The runner *)

Lemma handled_timeout {S A} (e : exn) (h1 h2 : exn -> M S A) :
  exn_class e = TimeoutExpired ->
  dispatch e [Except TimeoutExpired h1; Except Exception h2] = h1 e.
Proof. intros H. simpl. unfold isinstance. rewrite H. reflexivity. Qed.

Lemma handled_error {S A} (e : exn) (h1 h2 : exn -> M S A) :
  isinstance e TimeoutExpired = false -> isinstance e Exception = true ->
  dispatch e [Except TimeoutExpired h1; Except Exception h2] = h2 e.
Proof. intros H1 H2. simpl. rewrite H1, H2. reflexivity. Qed.

Lemma unhandled_interrupt {S A} (e : exn) (h1 h2 : exn -> M S A) :
  exn_class e = KeyboardInterrupt ->
  dispatch e [Except TimeoutExpired h1; Except Exception h2] = raise e.
Proof. intros H. simpl. unfold isinstance. rewrite H. reflexivity. Qed.

Lemma execute_code_exit E self code timeout w r w' :
  execute_code E self code timeout w = (r, w') ->
  exit_path E self code timeout w r w'.
Proof.
  unfold execute_code, try_, bind. intros H.
  destruct (scratch_file E self code w) as [[f|e] w1] eqn:Hs.
  - destruct (subprocess_run E [sys_executable E; name f] timeout w1)
      as [[cp|e] w2] eqn:Hr.
    + destruct (on_fs (os_unlink (name f)) w2) as [[[]|e] w3] eqn:Hu.
      * inversion H; subst. eapply completed; eauto.
      * pose proof Hu as Hu'. unfold on_fs in Hu'.
        destruct (os_unlink (name f) (w_fs w2)) as [r0 f0] eqn:Ho.
        inversion Hu'; subst. apply os_unlink_inv in Ho.
        destruct Ho as (_ & _ & Hos). apply os_error_caught in Hos.
        destruct Hos as [H1 H2].
        rewrite (handled_error e _ _ H1 H2) in H.
        inversion H; subst. eapply no_unlink; eauto.
    + pose proof Hr as Hr'. apply subprocess_run_inv in Hr'.
      destruct Hr' as (_ & _ & _ & Hcase).
      destruct (awaited _ timeout) as [d| |s].
      * destruct Hcase as [Hcp _]. discriminate Hcp.
      * destruct Hcase as [(e' & [= <-] & Hc) _].
        rewrite (handled_timeout e _ _ Hc) in H.
        inversion H; subst. eapply ran_out; eauto.
      * destruct Hcase as [(e' & [= <-] & Hc) _].
        rewrite (unhandled_interrupt e _ _ Hc) in H.
        inversion H; subst. eapply interrupted; eauto.
  - pose proof Hs as Hs'. apply scratch_file_inv in Hs'.
    destruct Hs' as (_ & _ & _ & H1 & H2 & _).
    rewrite (handled_error e _ _ H1 H2) in H.
    inversion H; subst. eapply no_scratch; eauto.
Qed.

(** The name of a scratch file is never that of a file already there. *)
Lemma fresh_scratch_name E self code w f w1 :
  scratch_file E self code w = (Return f, w1) ->
  is_file (w_fs w) (name f) = false /\ files (w_fs w1) !! name f = Some code.
Proof.
  intros Hs. apply scratch_file_inv in Hs.
  destruct Hs as (_ & _ & _ & _ & _ & Hn & Hf). split.
  - unfold is_file. rewrite Hn. apply bool_decide_eq_false. apply is_Some_None.
  - rewrite Hf. apply lookup_insert_eq.
Qed.

Lemma execute_code_ran_out E self code timeout w f w1 :
  scratch_file E self code w = (Return f, w1) ->
  awaited (exec E [sys_executable E; name f] (w_fs w1)) timeout = Expired ->
  exists w2,
    execute_code E self code timeout w = (Return timed_out, w2) /\
    w_fs w2 = writes (exec E [sys_executable E; name f] (w_fs w1)) timeout (w_fs w1) /\
    (w_next_pid w1 ∉ w_alive w2) /\ w_next_pid w2 = S (w_next_pid w1).
Proof.
  intros Hs Hx.
  destruct (subprocess_run E [sys_executable E; name f] timeout w1)
    as [r w2] eqn:Hr.
  pose proof Hr as Hi. apply subprocess_run_inv in Hi.
  destruct Hi as (Hdead & Hpid & _ & Hcase). rewrite Hx in Hcase.
  destruct Hcase as [(e & -> & Hc) Hfs].
  exists w2. unfold execute_code, try_, bind. rewrite Hs, Hr.
  rewrite (handled_timeout e _ _ Hc). auto.
Qed.

(** On the timeout path nothing deletes the scratch file: unless the
    child removed it itself, it is still in the workspace afterwards. *)
Lemma timeout_keeps_scratch_file E self code timeout w f w1 :
  scratch_file E self code w = (Return f, w1) ->
  let c := exec E [sys_executable E; name f] (w_fs w1) in
  awaited c timeout = Expired ->
  files (writes c timeout (w_fs w1)) !! name f = files (w_fs w1) !! name f ->
  exists w2,
    execute_code E self code timeout w = (Return timed_out, w2) /\
    files (w_fs w) !! name f = None /\
    files (w_fs w2) !! name f = Some code.
Proof.
  intros Hs c Hx Hkeep.
  destruct (execute_code_ran_out E self code timeout w f w1 Hs Hx)
    as (w2 & He & Hfs & _).
  apply scratch_file_inv in Hs. destruct Hs as (_ & _ & _ & _ & _ & Hn & Hf).
  exists w2. split_and!; auto.
  rewrite Hfs. fold c. rewrite Hkeep, Hf. apply lookup_insert_eq.
Qed.

(** C1.  The cleanup invariant says that after [executeCode] returns the
    scratch file is gone on every exit path.  On the sample device, a
    script that sleeps for a minute, run with a one-second timeout, ends
    on the timeout path, and the scratch file written for that call is
    still in the workspace, with the script in it, after the call has
    returned. *)
Theorem timeout_leaves_scratch_file :
  files (w_fs Sample.ready) !! Sample.scratch0 = None /\
  fst (execute_code Sample.device Sample.self Sample.sleeper 1%Q Sample.ready)
  = Return timed_out /\
  files (w_fs (snd (execute_code Sample.device Sample.self Sample.sleeper 1%Q
                      Sample.ready))) !! Sample.scratch0
  = Some Sample.sleeper.
Proof. vm_compute. auto. Qed.

(** C2, as stated, fails: a script that sends the interrupt signal to its
    parent makes [execute_code] raise [KeyboardInterrupt] to its caller
    instead of returning a result. *)
Lemma interrupt_propagates :
  ~ (forall E self code timeout w,
       exists r w', execute_code E self code timeout w = (Return r, w')).
Proof.
  intros H.
  destruct (H Sample.device Sample.self Sample.interrupt_parent 30%Q Sample.ready)
    as (r & w' & Heq).
  vm_compute in Heq. discriminate Heq.
Qed.

(** C2, amended.  For every source text, timeout and state of the device,
    [execute_code] either returns a result or lets a [KeyboardInterrupt]
    through, which is not an instance of [Exception]; every error that is
    one (a failure to create, write or delete the scratch file, a timeout)
    ends in a returned result. *)
Theorem execute_code_returns_or_is_interrupted E self code timeout w :
  (exists r w', execute_code E self code timeout w = (Return r, w'))
  \/ (exists e w',
        execute_code E self code timeout w = (Raise e, w') /\
        exn_class e = KeyboardInterrupt /\ isinstance e Exception = false).
Proof.
  destruct (execute_code E self code timeout w) as [r w'] eqn:He.
  apply execute_code_exit in He.
  destruct He; eauto.
  right. exists e, w2. split_and!; auto.
  unfold isinstance. rewrite H1. reflexivity.
Qed.



(** C4, as stated, fails: a script that ends itself with the hang-up
    signal (signal 1) completes well within the timeout, no step of the
    runner raises, and the result still carries status -1, which here is
    the child's own return code. *)
Lemma minus_one_from_child :
  exists f w1 cp w2 w3,
    scratch_file Sample.device Sample.self Sample.hangup Sample.ready
    = (Return f, w1) /\
    subprocess_run Sample.device [Sample.usr_bin_python; name f] 30%Q w1
    = (Return cp, w2) /\
    on_fs (os_unlink (name f)) w2 = (Return tt, w3) /\
    execute_code Sample.device Sample.self Sample.hangup 30%Q Sample.ready
    = (Return (reported cp), w3) /\
    returncode (reported cp) = -1.
Proof.
  eexists {| name := Sample.scratch0 |}, _, _, _, _.
  split_and!; vm_compute; reflexivity.
Qed.

(** C4, amended.  Every returned result is of one of two kinds: the
    streams and return code of a child that exited within the timeout and
    whose scratch file was then deleted, the return code passed on
    unchanged; or a runner-level result with empty output and status -1.
    Hence a status other than -1 is always the child's own return code,
    while -1 is either a runner-level failure or a child whose return
    code was -1. *)
Theorem exit_status_taxonomy E self code timeout w r w' :
  execute_code E self code timeout w = (Return r, w') ->
  ((exists f w1 cp w2,
      scratch_file E self code w = (Return f, w1) /\
      subprocess_run E [sys_executable E; name f] timeout w1 = (Return cp, w2) /\
      on_fs (os_unlink (name f)) w2 = (Return tt, w') /\
      r = {| stdout := cp_stdout cp; stderr := cp_stderr cp;
             returncode := exit_status (exec E [sys_executable E; name f] (w_fs w1)) |})
   \/ (stdout r = [] /\ returncode r = -1))
  /\ (returncode r <> -1 ->
      exists f w1 d,
        scratch_file E self code w = (Return f, w1) /\
        awaited (exec E [sys_executable E; name f] (w_fs w1)) timeout = Exited d /\
        returncode r = exit_status (exec E [sys_executable E; name f] (w_fs w1))).
Proof.
  intros He. apply execute_code_exit in He.
  inversion He as [e w1 Hs|f w1 e w2 Hs Hr Hc|f w1 e w2 Hs Hr Hc
                  |f w1 cp w2 e w3 Hs Hr Hu|f w1 cp w2 w3 Hs Hr Hu];
    subst; simpl.
  1-3: split; [right; auto | intros N; exfalso; apply N; reflexivity].
  pose proof Hr as Hi. apply subprocess_run_inv in Hi.
  destruct Hi as (_ & _ & _ & Hcase).
  destruct (awaited _ timeout) as [d| |s] eqn:Ha;
    [|destruct Hcase as [(e & He' & _) _]; discriminate He'..].
  destruct Hcase as [[= ->] _]. simpl. split.
  - left. eexists f, w1, _, w2. split_and!; eauto.
  - intros _. exists f, w1, d. auto.
Qed.

Lemma exit_status_taxonomy_witness :
  exists f w1 d,
    scratch_file Sample.device Sample.self Sample.exit3 Sample.ready = (Return f, w1) /\
    awaited (Sample.python [Sample.usr_bin_python; name f] (w_fs w1)) 30%Q = Exited d /\
    3 = exit_status (Sample.python [Sample.usr_bin_python; name f] (w_fs w1)).
Proof.
  refine (proj2 (exit_status_taxonomy Sample.device Sample.self Sample.exit3 30%Q
                   Sample.ready {| stdout := []; stderr := []; returncode := 3 |}
                   (snd (execute_code Sample.device Sample.self Sample.exit3 30%Q
                           Sample.ready)) _) _).
  - vm_compute. reflexivity.
  - simpl. discriminate.
Defined.




(** C10.  When the child has exited within the timeout and deleting the
    scratch file then raises, [execute_code] drops the child's output and
    return code and returns empty output, the text of the deletion error
    and status -1. *)
Theorem unlink_failure_masks_result E self code timeout w f w1 cp w2 e w3 :
  scratch_file E self code w = (Return f, w1) ->
  subprocess_run E [sys_executable E; name f] timeout w1 = (Return cp, w2) ->
  on_fs (os_unlink (name f)) w2 = (Raise e, w3) ->
  execute_code E self code timeout w
  = (Return {| stdout := []; stderr := exn_str e; returncode := -1 |}, w3).
Proof.
  intros Hs Hr Hu.
  destruct (execute_code E self code timeout w) as [r w'] eqn:He.
  apply execute_code_exit in He.
  inversion He as [e' w1' Hs'|f' w1' e' w2' Hs' Hr' Hc|f' w1' e' w2' Hs' Hr' Hc
                  |f' w1' cp' w2' e' w3' Hs' Hr' Hu'|f' w1' cp' w2' w3' Hs' Hr' Hu'];
    subst; rewrite Hs in Hs'; try discriminate Hs';
    injection Hs' as <- <-; rewrite Hr in Hr'; try discriminate Hr';
    injection Hr' as <- <-; rewrite Hu in Hu'; try discriminate Hu'.
  injection Hu' as <- <-. reflexivity.
Qed.

Lemma unlink_failure_masks_result_witness :
  execute_code Sample.device Sample.self Sample.self_delete 30%Q Sample.ready
  = (Return {| stdout := [];
               stderr := lit "[Errno 2] No such file or directory: '/data/home/.termux_ai_assistant/tmpabcd0000.py'";
               returncode := -1 |},
     {| w_fs := w_fs Sample.ready; w_rand := 1; w_alive := ∅; w_next_pid := 101 |}).
Proof.
  apply (unlink_failure_masks_result Sample.device Sample.self Sample.self_delete
           30%Q Sample.ready {| name := Sample.scratch0 |}
           (snd (scratch_file Sample.device Sample.self Sample.self_delete Sample.ready))
           {| cp_stdout := lit "hi" ++ nl; cp_stderr := []; cp_returncode := 0 |}
           {| w_fs := w_fs Sample.ready; w_rand := 1; w_alive := ∅; w_next_pid := 101 |}
           (ENOENT Sample.scratch0)).
  - vm_compute. reflexivity.
  - vm_compute. reflexivity.
  - vm_compute. reflexivity.
Defined.

(** ** The workspace directory *)

Lemma prefixes_self (p : path) : p ∈ prefixes p.
Proof.
  induction p as [|c q IH]; simpl.
  - apply list_elem_of_here.
  - apply list_elem_of_further. apply list_elem_of_In, in_map, list_elem_of_In, IH.
Qed.







(** ** Trimming *)

Lemma lstrip_split (s : str) :
  exists l, s = l ++ lstrip s /\ blank l /\
            (forall c, head (lstrip s) = Some c -> isspace c = false).
Proof.
  induction s as [|c s (l & Hs & Hl & Hh)]; simpl.
  - exists []. split_and!; [reflexivity|constructor|discriminate].
  - destruct (isspace c) eqn:Hc.
    + exists (c :: l). split_and!; [simpl; congruence|constructor; auto|assumption].
    + exists []. split_and!; [reflexivity|constructor|].
      simpl. intros c' [= <-]. exact Hc.
Qed.

Lemma last_rev_head {A} (l : list A) : last (rev l) = head l.
Proof. destruct l as [|a l]; [reflexivity|]. simpl. apply last_snoc. Qed.

Lemma rstrip_split (s : str) :
  exists r, s = rstrip s ++ r /\ blank r /\
            (forall c, last (rstrip s) = Some c -> isspace c = false).
Proof.
  unfold rstrip. destruct (lstrip_split (rev s)) as (l & Hs & Hl & Hh).
  exists (rev l). split_and!.
  - rewrite <- rev_app_distr, <- Hs, rev_involutive. reflexivity.
  - apply Forall_rev, Hl.
  - intros c. rewrite last_rev_head. apply Hh.
Qed.

Lemma strip_split (s : str) :
  exists l r, s = l ++ strip s ++ r /\ blank l /\ blank r /\
              (forall c, head (strip s) = Some c -> isspace c = false) /\
              (forall c, last (strip s) = Some c -> isspace c = false).
Proof.
  unfold strip.
  destruct (lstrip_split s) as (l & Hs & Hl & Hh).
  destruct (rstrip_split (lstrip s)) as (r & Hs' & Hr & Ht).
  exists l, r. split_and!; auto.
  - rewrite <- Hs'. exact Hs.
  - intros c Hc. apply Hh. rewrite Hs'.
    destruct (rstrip (lstrip s)); [discriminate|exact Hc].
Qed.

(** ** The generator mediator *)

Import AIClient.

Lemma wrapped {S A} (e : exn) (h : exn -> M S A) :
  isinstance e Exception = true -> dispatch e [Except Exception h] = h e.
Proof. intros H. simpl. rewrite H. reflexivity. Qed.

Lemma generate_code_text B self prompt s m txt :
  aiplatform_Model B (lit "gemini-1.5-pro") = Return m ->
  predict B (length (sent s)) (formatted_prompt prompt)
  = Return {| text := Some txt |} ->
  generate_code B self prompt s
  = (Return (strip txt), {| sent := sent s ++ [formatted_prompt prompt] |}).
Proof.
  intros Hm Hp. unfold generate_code, try_, bind, lift, model_predict.
  rewrite Hm, Hp. reflexivity.
Qed.

(** C8.  When the backend answers with a text, [generate_code] returns
    that text with leading and trailing whitespace removed and nothing
    else changed: the text is some whitespace, the returned code, and
    some whitespace again, and the returned code neither starts nor ends
    with whitespace. *)
Theorem generate_code_trims_only B self prompt s m txt :
  aiplatform_Model B (lit "gemini-1.5-pro") = Return m ->
  predict B (length (sent s)) (formatted_prompt prompt)
  = Return {| text := Some txt |} ->
  exists code s',
    generate_code B self prompt s = (Return code, s') /\
    code = strip txt /\
    exists l r,
      txt = l ++ code ++ r /\ blank l /\ blank r /\
      (forall c, head code = Some c -> isspace c = false) /\
      (forall c, last code = Some c -> isspace c = false).
Proof.
  intros Hm Hp. exists (strip txt), {| sent := sent s ++ [formatted_prompt prompt] |}.
  split_and!; [eapply generate_code_text; eauto|reflexivity|apply strip_split].
Qed.

Lemma generate_code_trims_only_witness :
  exists code s',
    generate_code (Sample.answering (Some Sample.fenced)) Sample.client
      (lit "list files") Sample.idle = (Return code, s') /\
    code = lit "```python" ++ nl ++ lit "print(1)" ++ nl ++ lit "```".
Proof.
  destruct (generate_code_trims_only (Sample.answering (Some Sample.fenced))
              Sample.client (lit "list files") Sample.idle
              (lit "gemini-1.5-pro") Sample.fenced eq_refl eq_refl)
    as (code & s' & He & Hc & _).
  exists code, s'. split; [exact He|]. rewrite Hc. vm_compute. reflexivity.
Defined.

(** C7, as stated, fails: an empty response is not turned into a failure;
    [generate_code] returns the empty text as the generated code. *)
Lemma empty_response_is_returned :
  predict (Sample.answering (Some [])) 0 (formatted_prompt (lit "list files"))
  = Return {| text := Some [] |} /\
  generate_code (Sample.answering (Some [])) Sample.client (lit "list files")
    Sample.idle
  = (Return [], {| sent := [formatted_prompt (lit "list files")] |}).
Proof. split; reflexivity. Qed.

(** C7, amended.  When a step of the generation raises an error (looking
    the model up, the prediction request, or trimming a response that
    carries no text), [generate_code] raises exactly one exception whose
    text is "Code generation failed: " followed by the text of that
    error, yields no code, and has sent the request at most once.  When
    no step raises, also on an empty text, it returns the trimmed text.
    An error while loading the credentials or initialising the service
    is raised by the constructor, wrapped as "Failed to initialize AI
    client: " and its text. *)
Theorem generate_code_fault B self prompt s :
  (forall e,
     backend_fault B (length (sent s)) prompt = Some e ->
     isinstance e Exception = true ->
     exists s',
       generate_code B self prompt s
       = (Raise (Exn Exception (lit "Code generation failed: " ++ exn_str e)), s') /\
       sent s `prefix_of` sent s' /\
       (length (sent s') <= S (length (sent s)))%nat)
  /\ (backend_fault B (length (sent s)) prompt = None ->
      exists txt s',
        predict B (length (sent s)) (formatted_prompt prompt)
        = Return {| text := Some txt |} /\
        generate_code B self prompt s = (Return (strip txt), s'))
  /\ (forall path e,
        load_credentials_from_file B path = Raise e
        \/ (exists cp, load_credentials_from_file B path = Return cp /\
                       aiplatform_init B (fst cp) = Raise e) ->
        isinstance e Exception = true ->
        AIClient.__init__ B path s
        = (Raise (Exn Exception (lit "Failed to initialize AI client: " ++ exn_str e)),
           s)).
Proof.
  split_and!.
  - intros e Hf He. unfold backend_fault in Hf.
    unfold generate_code, try_, bind, lift, model_predict.
    destruct (aiplatform_Model B (lit "gemini-1.5-pro")) as [m|e0] eqn:Hm.
    + destruct (predict B (length (sent s)) (formatted_prompt prompt))
        as [[[txt|]]|e1] eqn:Hp; try discriminate Hf;
        injection Hf as <-; simpl; try rewrite He;
        eexists; (split_and!; [reflexivity| |]); simpl;
        try (apply prefix_app_r; reflexivity);
        rewrite length_app; simpl; lia.
    + injection Hf as <-. simpl. rewrite He.
      eexists. split_and!; [reflexivity|reflexivity|lia].
  - intros Hf. unfold backend_fault in Hf.
    destruct (aiplatform_Model B (lit "gemini-1.5-pro")) as [m|e0] eqn:Hm;
      [|discriminate Hf].
    destruct (predict B (length (sent s)) (formatted_prompt prompt))
      as [[[txt|]]|e1] eqn:Hp; try discriminate Hf.
    exists txt. eexists. split; [reflexivity|].
    eapply generate_code_text; eauto.
  - intros path e Hsrc He.
    unfold AIClient.__init__, _initialize_client, bind, try_, lift. simpl.
    destruct Hsrc as [Hl|(cp & Hl & Hi)]; rewrite Hl; [|rewrite Hi];
      simpl; rewrite He; reflexivity.
Qed.

Lemma generate_code_fault_witness :
  (exists s',
     generate_code Sample.offline Sample.client (lit "list files") Sample.idle
     = (Raise (Exn Exception
                 (lit "Code generation failed: 503 failed to connect")), s') /\
     (length (sent s') <= 1)%nat)
  /\ (exists s',
        generate_code (Sample.answering None) Sample.client (lit "list files")
          Sample.idle
        = (Raise (Exn Exception
                    (lit "Code generation failed: 'NoneType' object has no attribute 'strip'")),
           s'))
  /\ (exists s',
        generate_code (Sample.answering (Some [])) Sample.client
          (lit "list files") Sample.idle = (Return [], s')).
Proof.
  split_and!.
  - destruct (proj1 (generate_code_fault Sample.offline Sample.client
                       (lit "list files") Sample.idle)
                (Exn ConnectionError (lit "503 failed to connect"))
                eq_refl eq_refl) as (s' & He & _ & Hn).
    exists s'. split; [exact He|exact Hn].
  - destruct (proj1 (generate_code_fault (Sample.answering None) Sample.client
                       (lit "list files") Sample.idle)
                no_strip eq_refl eq_refl) as (s' & He & _).
    exists s'. exact He.
  - destruct (proj1 (proj2 (generate_code_fault (Sample.answering (Some []))
                              Sample.client (lit "list files") Sample.idle))
                eq_refl) as (txt & s' & Hp & He).
    exists s'. injection Hp as <-. exact He.
Defined.


(** * Further properties of the runner *)

Lemma _mkstemp_inner_name E n dir pre suf w file w' :
  _mkstemp_inner E n dir pre suf w = (Return file, w') ->
  exists nm, file = dir ++ [pre ++ nm ++ suf].
Proof.
  revert w. induction n as [|k IH]; intros w H; [discriminate H|].
  simpl in H. unfold bind, next_name, try_, on_fs in H. simpl in H.
  destruct (os_open_excl (dir ++ [pre ++ rand_name E (w_rand w) ++ suf]) (w_fs w))
    as [[[]|e] f0]; simpl in H.
  - injection H as <- _. eauto.
  - destruct (isinstance e FileExistsError); [eauto|discriminate H].
Qed.

Lemma scratch_file_name E self code w f w1 :
  scratch_file E self code w = (Return f, w1) ->
  exists nm, name f = workspace_dir self ++ [lit "tmp" ++ nm ++ lit ".py"].
Proof.
  unfold scratch_file, with_, NamedTemporaryFile, bind. intros H.
  destruct (_mkstemp_inner E TMP_MAX (workspace_dir self) (lit "tmp") (lit ".py") w)
    as [[file|e] w0] eqn:Hm; [|discriminate H].
  apply _mkstemp_inner_name in Hm. simpl in H.
  destruct (write {| name := file |} code w0) as [[[]|e] w2];
    simpl in H; [|discriminate H].
  injection H as <- _. exact Hm.
Qed.

(** X1.  A scratch file that has been written lies directly in the
    workspace directory, is named "tmp", a drawn name, ".py", did not exist
    before, and holds exactly the code; every other file and every
    directory is as before. *)
Theorem scratch_file_is_new E self code w f w1 :
  scratch_file E self code w = (Return f, w1) ->
  (exists nm, name f = workspace_dir self ++ [lit "tmp" ++ nm ++ lit ".py"]) /\
  files (w_fs w) !! name f = None /\
  files (w_fs w1) !! name f = Some code /\
  (forall p, p <> name f -> files (w_fs w1) !! p = files (w_fs w) !! p) /\
  dirs (w_fs w1) = dirs (w_fs w).
Proof.
  intros Hs. pose proof (scratch_file_name _ _ _ _ _ _ Hs) as Hn.
  apply scratch_file_inv in Hs. destruct Hs as (_ & _ & Hd & _ & _ & Hnone & Hf).
  split_and!; auto.
  - rewrite Hf. apply lookup_insert_eq.
  - intros p Hp. rewrite Hf. apply lookup_insert_ne. congruence.
Qed.

Lemma scratch_file_is_new_witness :
  exists f w1,
    scratch_file Sample.device Sample.self Sample.hello Sample.ready = (Return f, w1) /\
    (exists nm, name f = Sample.workspace ++ [lit "tmp" ++ nm ++ lit ".py"]) /\
    files (w_fs w1) !! name f = Some Sample.hello.
Proof.
  exists {| name := Sample.scratch0 |},
         (snd (scratch_file Sample.device Sample.self Sample.hello Sample.ready)).
  assert (H : scratch_file Sample.device Sample.self Sample.hello Sample.ready
              = (Return {| name := Sample.scratch0 |},
                 snd (scratch_file Sample.device Sample.self Sample.hello Sample.ready))).
  { vm_compute. reflexivity. }
  destruct (scratch_file_is_new _ _ _ _ _ _ H) as (Hn & _ & Hc & _).
  split_and!; assumption.
Defined.

Lemma on_fs_frame {A} (m : M fs A) w r w' :
  on_fs m w = (r, w') ->
  w_alive w' = w_alive w /\ w_next_pid w' = w_next_pid w /\
  m (w_fs w) = (r, w_fs w').
Proof.
  unfold on_fs. destruct (m (w_fs w)) as [r0 f0]. intros H. both H. auto.
Qed.


Lemma subprocess_run_files E args timeout w r w2 :
  subprocess_run E args timeout w = (r, w2) ->
  exists t, w_fs w2 = writes (exec E args (w_fs w)) t (w_fs w).
Proof.
  intros H. apply subprocess_run_inv in H. destruct H as (_ & _ & _ & H).
  destruct (awaited _ timeout) as [d| |s]; destruct H as [_ H]; eauto.
Qed.






(** X5.  The constructor has no error handling: when a regular file sits
    at the workspace path or at one of its ancestors, constructing the
    runner raises the operating-system error and changes nothing. *)
Theorem constructor_raises_when_blocked E d w q :
  find (is_file (w_fs w))
       (prefixes match d with
                 | Some p => p
                 | None => home E ++ [lit ".termux_ai_assistant"]
                 end) = Some q ->
  exists e,
    CodeExecutor.__init__ E d w = (Raise e, w) /\ isinstance e OSError = true.
Proof.
  intros Hq.
  unfold CodeExecutor.__init__, _ensure_workspace, bind, on_fs, os_makedirs.
  simpl. rewrite Hq. destruct w as [fsys rnd alive nxt]. simpl.
  eexists. split; [reflexivity|]. destruct (decide _); reflexivity.
Qed.

Lemma constructor_raises_when_blocked_witness :
  exists e,
    CodeExecutor.__init__ Sample.device None Desk.blocked = (Raise e, Desk.blocked) /\
    isinstance e OSError = true.
Proof.
  apply (constructor_raises_when_blocked Sample.device None Desk.blocked
           Sample.workspace).
  vm_compute. reflexivity.
Defined.

Lemma scratch_file_keeps E self code w r w1 p c :
  scratch_file E self code w = (r, w1) ->
  files (w_fs w) !! p = Some c ->
  files (w_fs w1) !! p = Some c.
Proof.
  unfold scratch_file, with_, NamedTemporaryFile, bind. intros H Hp.
  destruct (_mkstemp_inner E TMP_MAX (workspace_dir self) (lit "tmp") (lit ".py") w)
    as [[file|e] w0] eqn:Hm; apply _mkstemp_inner_inv in Hm;
    destruct Hm as (_ & _ & Hm); simpl in H.
  - destruct Hm as (_ & _ & Hnone & Hfs).
    assert (Hne : file <> p) by congruence.
    unfold write in H. destruct (encodable code).
    + unfold on_fs, flush, close, ret in H. simpl in H. both H. simpl.
      rewrite Hfs. simpl. rewrite lookup_alter_ne, lookup_insert_ne by exact Hne.
      exact Hp.
    + unfold raise, close, ret in H. simpl in H. both H.
      rewrite Hfs. simpl. rewrite lookup_insert_ne by exact Hne. exact Hp.
  - destruct Hm as (Hfs & _). both H. rewrite Hfs. exact Hp.
Qed.

(** X6.  A call never alters or removes a file that was there before it:
    whatever way it ends, every earlier file that the child program does
    not touch still has its text afterwards. *)
Theorem existing_files_are_kept E self code timeout w p c :
  files (w_fs w) !! p = Some c ->
  (forall argv f t, files (writes (exec E argv f) t f) !! p = files f !! p) ->
  files (w_fs (snd (execute_code E self code timeout w))) !! p = Some c.
Proof.
  intros Hp Hchild.
  destruct (execute_code E self code timeout w) as [r w'] eqn:He. simpl.
  apply execute_code_exit in He.
  assert (Hrun : forall f w1 r1 w2,
             scratch_file E self code w = (Return f, w1) ->
             subprocess_run E [sys_executable E; name f] timeout w1 = (r1, w2) ->
             files (w_fs w2) !! p = Some c /\ name f <> p).
  { intros f w1 r1 w2 Hs Hr.
    pose proof (scratch_file_keeps _ _ _ _ _ _ _ _ Hs Hp) as H1.
    apply scratch_file_inv in Hs. destruct Hs as (_ & _ & _ & _ & _ & Hnone & _).
    apply subprocess_run_files in Hr. destruct Hr as [t ->].
    rewrite Hchild. split; [exact H1|congruence]. }
  inversion He as [e w1 Hs|f w1 e w2 Hs Hr Hc|f w1 e w2 Hs Hr Hc
                  |f w1 cp w2 e w3 Hs Hr Hu|f w1 cp w2 w3 Hs Hr Hu]; subst.
  - eapply scratch_file_keeps; eauto.
  - eapply Hrun; eauto.
  - eapply Hrun; eauto.
  - destruct (Hrun _ _ _ _ Hs Hr) as [H2 _].
    apply on_fs_frame in Hu. destruct Hu as (_ & _ & Hu).
    apply os_unlink_inv in Hu. destruct Hu as (_ & -> & _). exact H2.
  - destruct (Hrun _ _ _ _ Hs Hr) as [H2 Hne].
    apply on_fs_frame in Hu. destruct Hu as (_ & _ & Hu).
    apply os_unlink_inv in Hu. destruct Hu as (_ & ->). simpl.
    rewrite lookup_delete_ne by exact Hne. exact H2.
Qed.

Lemma existing_files_are_kept_witness :
  files (w_fs (snd (execute_code Desk.sleepy Sample.self Sample.sleeper 1%Q
                      Desk.stocked))) !! Desk.notes = Some (lit "keep me").
Proof.
  apply (existing_files_are_kept Desk.sleepy Sample.self Sample.sleeper 1%Q
           Desk.stocked Desk.notes (lit "keep me")).
  - vm_compute. reflexivity.
  - intros argv f t. reflexivity.
Defined.

(** * Further properties of the generator mediator *)

Lemma generate_code_log B self prompt s :
  sent (snd (generate_code B self prompt s))
  = match aiplatform_Model B (lit "gemini-1.5-pro") with
    | Return _ => sent s ++ [formatted_prompt prompt]
    | Raise _ => sent s
    end.
Proof.
  unfold generate_code, try_, bind, lift, model_predict.
  destruct (aiplatform_Model B (lit "gemini-1.5-pro")) as [m|e]; simpl.
  - destruct (predict B (length (sent s)) (formatted_prompt prompt))
      as [[[txt|]]|e]; simpl; try reflexivity.
    destruct (isinstance e Exception); reflexivity.
  - destruct (isinstance e Exception); reflexivity.
Qed.

(** X7.  One call of [generate_code] sends exactly one request, the
    template around the prompt, when the model lookup succeeds, and none
    when it fails; this is so whether the call then returns or raises, and
    earlier entries of the request log are never changed. *)
Theorem one_request_per_generation B self prompt s :
  sent (snd (generate_code B self prompt s))
  = match aiplatform_Model B (lit "gemini-1.5-pro") with
    | Return _ => sent s ++ [formatted_prompt prompt]
    | Raise _ => sent s
    end.
Proof. apply generate_code_log. Qed.

(** X8.  The request is a fixed text, the prompt exactly as given, and a
    fixed text: the prompt is neither escaped nor cut, and different
    prompts give different requests. *)
Theorem prompt_is_embedded_verbatim :
  exists pre suf,
    (forall p, formatted_prompt p = pre ++ p ++ suf) /\
    (forall p q, formatted_prompt p = formatted_prompt q -> p = q).
Proof.
  exists (nl ++ indent ++ lit "Generate Python code for the following request:"
          ++ nl ++ indent),
         (nl ++ indent
          ++ nl ++ indent ++ lit "Consider that this code will run in Termux on Android."
          ++ nl ++ indent ++ lit "Only include the code implementation, no explanations."
          ++ nl ++ indent).
  assert (Hshape : forall p,
             formatted_prompt p
             = (nl ++ indent ++ lit "Generate Python code for the following request:"
                ++ nl ++ indent)
               ++ p
               ++ (nl ++ indent
                   ++ nl ++ indent ++ lit "Consider that this code will run in Termux on Android."
                   ++ nl ++ indent ++ lit "Only include the code implementation, no explanations."
                   ++ nl ++ indent)).
  { intros p. unfold formatted_prompt. rewrite <- !app_assoc. reflexivity. }
  split; [exact Hshape|].
  intros p q H. rewrite !Hshape in H.
  apply app_inv_head in H. apply app_inv_tail in H. exact H.
Qed.

Lemma lstrip_blank (s : str) : blank s -> lstrip s = [].
Proof.
  induction 1 as [|c s Hc _ IH]; [reflexivity|]. simpl. rewrite Hc. exact IH.
Qed.

Lemma lstrip_id (s : str) :
  (forall c, head s = Some c -> isspace c = false) -> lstrip s = s.
Proof.
  destruct s as [|c s]; [reflexivity|]. simpl. intros H.
  rewrite (H c eq_refl). reflexivity.
Qed.

Lemma rstrip_id (s : str) :
  (forall c, last s = Some c -> isspace c = false) -> rstrip s = s.
Proof.
  intros H. unfold rstrip. rewrite lstrip_id; [apply rev_involutive|].
  intros c Hc. apply H. rewrite <- last_rev_head, rev_involutive in Hc. exact Hc.
Qed.

Lemma strip_strip (s : str) : strip (strip s) = strip s.
Proof.
  destruct (strip_split s) as (l & r & _ & _ & _ & Hh & Ht).
  unfold strip at 1. rewrite (lstrip_id _ Hh). apply rstrip_id, Ht.
Qed.

Lemma strip_empty (s : str) : strip s = [] <-> blank s.
Proof.
  split.
  - intros H. destruct (strip_split s) as (l & r & Hs & Hl & Hr & _).
    rewrite H in Hs. rewrite Hs. apply Forall_app. split; assumption.
  - intros H. unfold strip. rewrite (lstrip_blank _ H). reflexivity.
Qed.

(** X9.  The code extracted from a response is stable: extracting again
    from it gives the same code.  It is empty exactly when the response
    was empty or whitespace only. *)
Theorem extracted_code_is_stable (self : AIClient.t) (s : str) (n : net) :
  exists code,
    _extract_code self (Some s) n = (Return code, n) /\
    _extract_code self (Some code) n = (Return code, n) /\
    (code = [] <-> blank s).
Proof.
  exists (strip s). unfold _extract_code, ret. split_and!.
  - reflexivity.
  - rewrite strip_strip. reflexivity.
  - apply strip_empty.
Qed.

(** X10.  A fault that is not an instance of [Exception], such as a
    [KeyboardInterrupt] during the request, is not wrapped: it reaches
    the caller of [generate_code] as it is. *)
Theorem interrupt_passes_through_generate_code B self prompt s e :
  backend_fault B (length (sent s)) prompt = Some e ->
  isinstance e Exception = false ->
  exists s', generate_code B self prompt s = (Raise e, s').
Proof.
  intros Hf He. unfold backend_fault in Hf.
  unfold generate_code, try_, bind, lift, model_predict.
  destruct (aiplatform_Model B (lit "gemini-1.5-pro")) as [m|e0].
  - destruct (predict B (length (sent s)) (formatted_prompt prompt))
      as [[[txt|]]|e1]; try discriminate Hf; injection Hf as <-.
    + discriminate He.
    + simpl. rewrite He. eexists. reflexivity.
  - injection Hf as <-. simpl. rewrite He. eexists. reflexivity.
Qed.

Lemma interrupt_passes_through_generate_code_witness :
  exists s',
    generate_code Desk.interrupting Sample.client (lit "list files") Sample.idle
    = (Raise (Exn KeyboardInterrupt []), s').
Proof.
  apply (interrupt_passes_through_generate_code Desk.interrupting Sample.client
           (lit "list files") Sample.idle (Exn KeyboardInterrupt []));
    reflexivity.
Defined.

(** * Properties of the configuration loader *)

Import Utils.

Lemma bind_return {S A B} (m : M S A) (k : A -> M S B) s a s' :
  m s = (Return a, s') -> bind m k s = k a s'.
Proof. unfold bind. intros ->. reflexivity. Qed.

Lemma bind_raise {S A B} (m : M S A) (k : A -> M S B) s e s' :
  m s = (Raise e, s') -> bind m k s = (Raise e, s').
Proof. unfold bind. intros ->. reflexivity. Qed.

Lemma is_dir_child (f : fs) (d : path) (x : str) :
  is_dir f (d ++ [x]) = bool_decide (d ++ [x] ∈ dirs f).
Proof. destruct d; reflexivity. Qed.

Lemma is_dir_listed (f : fs) (p : path) : p ∈ dirs f -> is_dir f p = true.
Proof.
  intros H. destruct p; [reflexivity|]. simpl. apply bool_decide_eq_true, H.
Qed.

Lemma prefixes_length (p q : path) :
  q ∈ prefixes p -> (length q <= length p)%nat.
Proof.
  revert q. induction p as [|c p IH]; intros q Hq; simpl in Hq.
  - apply list_elem_of_singleton in Hq. subst. reflexivity.
  - apply elem_of_cons in Hq. destruct Hq as [->|Hq]; [simpl; lia|].
    apply list_elem_of_In, in_map_iff in Hq. destruct Hq as (q' & <- & Hq').
    apply list_elem_of_In, IH in Hq'. simpl. lia.
Qed.

Lemma child_not_prefix (d : path) (x : str) : d ++ [x] ∉ prefixes d.
Proof.
  intros H. apply prefixes_length in H. rewrite length_app in H. simpl in H. lia.
Qed.

Lemma child_not_parent (d : path) (x : str) : d ++ [x] <> d.
Proof.
  intros H. apply (f_equal length) in H. rewrite length_app in H. simpl in H. lia.
Qed.

Lemma open_w_ok p w :
  is_file (w_fs w) (parent p) = false ->
  is_dir (w_fs w) (parent p) = true ->
  is_dir (w_fs w) p = false ->
  open_w p w
  = (Return {| name := p |},
     World (Fs (<[p := []]> (files (w_fs w))) (dirs (w_fs w)))
           (w_rand w) (w_alive w) (w_next_pid w)).
Proof. unfold open_w, on_fs. intros -> -> ->. reflexivity. Qed.

Lemma open_r_ok p w :
  is_file (w_fs w) (parent p) = false ->
  is_dir (w_fs w) (parent p) = true ->
  is_dir (w_fs w) p = false ->
  is_file (w_fs w) p = true ->
  open_r p w = (Return {| name := p |}, w).
Proof.
  unfold open_r, on_fs. intros -> -> -> ->. destruct w; reflexivity.
Qed.

Lemma is_file_lookup (f : fs) (p : path) (text : str) :
  files f !! p = Some text -> is_file f p = true.
Proof. intros H. unfold is_file. rewrite H. apply bool_decide_eq_true. eauto. Qed.

Lemma load_config_present E Y w text :
  let config_path := app_dir E ++ [lit "config.yaml"] in
  is_file (w_fs w) (app_dir E) = false ->
  is_dir (w_fs w) (app_dir E) = true ->
  is_dir (w_fs w) config_path = false ->
  files (w_fs w) !! config_path = Some text ->
  load_config E Y w = (safe_load Y text, w).
Proof.
  intros cfg Hpf Hpd Hd Hf.
  pose proof (is_file_lookup _ _ _ Hf) as Hfile.
  unfold load_config, bind, path_exists, with_as, bind. fold cfg.
  rewrite Hfile. simpl.
  rewrite open_r_ok by (unfold cfg in *; rewrite ?parent_child; assumption).
  unfold read, lift, close, ret, raise. simpl. rewrite Hf. simpl.
  destruct (safe_load Y text); reflexivity.
Qed.

Lemma load_config_fresh E Y w :
  let config_path := app_dir E ++ [lit "config.yaml"] in
  is_file (w_fs w) config_path = false ->
  is_dir (w_fs w) config_path = false ->
  find (is_file (w_fs w)) (prefixes (app_dir E)) = None ->
  encodable (dump Y (default_config E)) = true ->
  load_config E Y w
  = (safe_load Y (dump Y (default_config E)),
     World (Fs (<[config_path := dump Y (default_config E)]> (files (w_fs w)))
               (dirs (w_fs w) ∪ list_to_set (prefixes (app_dir E))))
           (w_rand w) (w_alive w) (w_next_pid w)).
Proof.
  intros cfg Hf Hd Hnone Henc.
  assert (Hpf : is_file (w_fs w) (app_dir E) = false).
  { eapply find_none; [exact Hnone|]. apply list_elem_of_In, prefixes_self. }
  assert (Hnd : cfg ∉ dirs (w_fs w)).
  { unfold cfg in Hd. rewrite is_dir_child in Hd.
    apply bool_decide_eq_false in Hd. exact Hd. }
  set (w1 := World (Fs (files (w_fs w))
                       (dirs (w_fs w) ∪ list_to_set (prefixes (app_dir E))))
                   (w_rand w) (w_alive w) (w_next_pid w)).
  assert (Hmk : on_fs (os_makedirs (parent cfg) true) w = (Return tt, w1)).
  { unfold on_fs, os_makedirs, cfg. rewrite parent_child, Hnone, andb_false_r.
    reflexivity. }
  assert (Hpd1 : is_dir (w_fs w1) (app_dir E) = true).
  { apply is_dir_listed. simpl.
    apply elem_of_union_r, elem_of_list_to_set, prefixes_self. }
  assert (Hd1 : is_dir (w_fs w1) cfg = false).
  { unfold cfg. rewrite is_dir_child. apply bool_decide_eq_false. simpl.
    rewrite elem_of_union, elem_of_list_to_set.
    intros [H|H]; [exact (Hnd H)|exact (child_not_prefix _ _ H)]. }
  set (w2 := World (Fs (<[cfg := dump Y (default_config E)]> (files (w_fs w)))
                       (dirs (w_fs w) ∪ list_to_set (prefixes (app_dir E))))
                   (w_rand w) (w_alive w) (w_next_pid w)).
  assert (Hwr : with_as (open_w cfg)
                  (fun f => write f (dump Y (default_config E))) w1
                = (Return tt, w2)).
  { unfold with_as, bind.
    rewrite open_w_ok by (unfold cfg; rewrite ?parent_child; assumption).
    unfold write. rewrite Henc. unfold on_fs, close, ret. simpl.
    rewrite alter_insert_eq. reflexivity. }
  assert (Hrd : with_as (open_r cfg)
                  (fun f => let* text := read f in lift (safe_load Y text)) w2
                = (safe_load Y (dump Y (default_config E)), w2)).
  { unfold with_as, bind. rewrite open_r_ok.
    - unfold read, lift, close, ret, raise. simpl. rewrite lookup_insert_eq. simpl.
      destruct (safe_load Y (dump Y (default_config E))); reflexivity.
    - unfold cfg. rewrite parent_child. unfold is_file. simpl.
      rewrite lookup_insert_ne by apply child_not_parent. exact Hpf.
    - unfold cfg. rewrite parent_child. exact Hpd1.
    - exact Hd1.
    - eapply is_file_lookup. apply lookup_insert_eq. }
  unfold load_config. fold cfg.
  rewrite (bind_return _ _ w false w) by (unfold path_exists; rewrite Hf, Hd; reflexivity).
  simpl negb. cbv iota.
  rewrite (bind_return _ _ w tt w2); [exact Hrd|].
  rewrite (bind_return _ _ w tt w1 Hmk). exact Hwr.
Qed.

Lemma config_written_state E Y w :
  let config_path := app_dir E ++ [lit "config.yaml"] in
  let w2 := World (Fs (<[config_path := dump Y (default_config E)]> (files (w_fs w)))
                      (dirs (w_fs w) ∪ list_to_set (prefixes (app_dir E))))
                  (w_rand w) (w_alive w) (w_next_pid w) in
  is_dir (w_fs w) config_path = false ->
  find (is_file (w_fs w)) (prefixes (app_dir E)) = None ->
  is_file (w_fs w2) (app_dir E) = false /\
  is_dir (w_fs w2) (app_dir E) = true /\
  is_dir (w_fs w2) config_path = false /\
  files (w_fs w2) !! config_path = Some (dump Y (default_config E)).
Proof.
  intros cfg w2 Hd Hnone. split_and!.
  - unfold is_file. simpl. unfold cfg.
    rewrite lookup_insert_ne by apply child_not_parent.
    eapply (find_none (is_file (w_fs w))); [exact Hnone|].
    apply list_elem_of_In, prefixes_self.
  - apply is_dir_listed. simpl.
    apply elem_of_union_r, elem_of_list_to_set, prefixes_self.
  - unfold cfg in *. rewrite is_dir_child in *.
    apply bool_decide_eq_false in Hd. apply bool_decide_eq_false. simpl.
    rewrite elem_of_union, elem_of_list_to_set.
    intros [H|H]; [exact (Hd H)|exact (child_not_prefix _ _ H)].
  - apply lookup_insert_eq.
Qed.

(** X11.  On a first run, when nothing exists at the configuration path
    and no regular file is in the way of its directory, [load_config]
    creates the directory with its ancestors, writes the dumped default
    configuration to the file, and returns what loading that text gives.
    No other file is created or changed, so the credentials file the
    default points to is not created, and no directory is removed. *)
Theorem first_run_writes_default_config E Y w :
  let config_path := app_dir E ++ [lit "config.yaml"] in
  is_file (w_fs w) config_path = false ->
  is_dir (w_fs w) config_path = false ->
  find (is_file (w_fs w)) (prefixes (app_dir E)) = None ->
  encodable (dump Y (default_config E)) = true ->
  exists w',
    load_config E Y w = (safe_load Y (dump Y (default_config E)), w') /\
    files (w_fs w') = <[config_path := dump Y (default_config E)]> (files (w_fs w)) /\
    (forall q, q ∈ prefixes (app_dir E) -> is_dir (w_fs w') q = true) /\
    (forall q, q ∈ dirs (w_fs w) -> q ∈ dirs (w_fs w')).
Proof.
  intros cfg Hf Hd Hnone Henc. eexists.
  split; [apply load_config_fresh; assumption|]. simpl. split_and!.
  - reflexivity.
  - intros q Hq. apply is_dir_listed. simpl.
    apply elem_of_union_r, elem_of_list_to_set, Hq.
  - intros q Hq. apply elem_of_union_l, Hq.
Qed.

Lemma first_run_writes_default_config_witness :
  exists w',
    load_config Sample.device Desk.tiny_yaml Sample.boot
    = (Return (default_config Sample.device), w') /\
    files (w_fs w') !! Desk.config_yaml
    = Some (lit "credentials_path: /data/home/.config/termux_ai_assistant/credentials.json"
            ++ nl).
Proof.
  destruct (first_run_writes_default_config Sample.device Desk.tiny_yaml Sample.boot)
    as (w' & He & Hfiles & _).
  - vm_compute. reflexivity.
  - vm_compute. reflexivity.
  - vm_compute. reflexivity.
  - vm_compute. reflexivity.
  - exists w'. split; [exact He|]. rewrite Hfiles. apply lookup_insert_eq.
Defined.

(** X12.  When the configuration file exists, [load_config] only reads
    it: it returns whatever loading its text gives (a value, or the
    parser's error) and changes nothing on the device; the default
    configuration is neither written nor merged in. *)
Theorem existing_config_is_only_read E Y w text :
  let config_path := app_dir E ++ [lit "config.yaml"] in
  is_file (w_fs w) (app_dir E) = false ->
  is_dir (w_fs w) (app_dir E) = true ->
  is_dir (w_fs w) config_path = false ->
  files (w_fs w) !! config_path = Some text ->
  load_config E Y w = (safe_load Y text, w).
Proof. apply load_config_present. Qed.

Lemma existing_config_is_only_read_witness :
  load_config Sample.device Desk.tiny_yaml Desk.emptied = (Return PyNone, Desk.emptied).
Proof.
  apply (existing_config_is_only_read Sample.device Desk.tiny_yaml Desk.emptied []).
  - vm_compute. reflexivity.
  - vm_compute. reflexivity.
  - vm_compute. reflexivity.
  - vm_compute. reflexivity.
Defined.

(** X13.  Loading the configuration a second time, right after a first
    run that created it, returns the same as the first run did and
    changes nothing. *)
Theorem second_run_changes_nothing E Y w :
  let config_path := app_dir E ++ [lit "config.yaml"] in
  is_file (w_fs w) config_path = false ->
  is_dir (w_fs w) config_path = false ->
  find (is_file (w_fs w)) (prefixes (app_dir E)) = None ->
  encodable (dump Y (default_config E)) = true ->
  let first := load_config E Y w in
  load_config E Y (snd first) = (fst first, snd first).
Proof.
  intros cfg Hf Hd Hnone Henc first. unfold first.
  rewrite (load_config_fresh E Y w Hf Hd Hnone Henc). simpl.
  destruct (config_written_state E Y w Hd Hnone) as (H1 & H2 & H3 & H4).
  apply load_config_present; assumption.
Qed.

Lemma second_run_changes_nothing_witness :
  load_config Sample.device Desk.tiny_yaml Desk.configured
  = (Return (default_config Sample.device), Desk.configured).
Proof.
  apply (second_run_changes_nothing Sample.device Desk.tiny_yaml Sample.boot);
    vm_compute; reflexivity.
Defined.

(** X14.  [load_config] has no error handling of its own: when a
    directory sits at the configuration path, opening it raises
    [IsADirectoryError] to the caller, and nothing is changed. *)
Theorem config_directory_is_an_error E Y w :
  let config_path := app_dir E ++ [lit "config.yaml"] in
  is_file (w_fs w) (app_dir E) = false ->
  is_dir (w_fs w) (app_dir E) = true ->
  is_dir (w_fs w) config_path = true ->
  load_config E Y w = (Raise (EISDIR config_path), w).
Proof.
  intros cfg Hpf Hpd Hd. unfold load_config. fold cfg.
  rewrite (bind_return _ _ w true w)
    by (unfold path_exists; rewrite Hd, orb_true_r; reflexivity).
  simpl negb. cbv iota.
  rewrite (bind_return _ _ w tt w) by reflexivity.
  unfold with_as. apply bind_raise.
  unfold open_r, on_fs, cfg in *. rewrite parent_child, Hpf, Hpd, Hd. simpl.
  destruct w; reflexivity.
Qed.

Lemma config_directory_is_an_error_witness :
  load_config Sample.device Desk.tiny_yaml Desk.misplaced
  = (Raise (EISDIR Desk.config_yaml), Desk.misplaced).
Proof.
  apply (config_directory_is_an_error Sample.device Desk.tiny_yaml Desk.misplaced);
    vm_compute; reflexivity.
Defined.

(** * Properties of the interactive loop *)

Import TerminalUI.


(** X15.  The three commands never reach the backend or the device:
    "exit" and "quit", in any case the lower-casing maps to them, leave
    the loop at once and print nothing; "help" prints the help text and
    goes on to the next prompt. *)
Theorem commands_stay_local E B lower self u st p :
  typed u = Return p ->
  lower p ∈ [lit "exit"; lit "quit"; lit "help"] ->
  exists how st',
    round E B lower self u st = (Return how, st') /\
    os st' = os st /\ net st' = net st /\
    (lower p = lit "help" ->
     how = Continue /\ console st' = console st ++ [Markup help_text]) /\
    (lower p <> lit "help" -> how = Break /\ console st' = console st).
Proof.
  intros Ht Hcmd. unfold round, try_, bind, lift. rewrite Ht.
  destruct (decide (lower p ∈ [lit "exit"; lit "quit"])) as [Hq|Hq].
  - rewrite (bool_decide_eq_true_2 _ Hq). exists Break, st.
    split_and!; try reflexivity; [|auto].
    intros Hh. rewrite Hh in Hq. exfalso. revert Hq.
    rewrite !elem_of_cons, elem_of_nil. intros [H|[H|[]]]; discriminate H.
  - rewrite (bool_decide_eq_false_2 _ Hq).
    assert (Hh : lower p = lit "help").
    { revert Hcmd Hq. rewrite !elem_of_cons, !elem_of_nil. tauto. }
    rewrite (bool_decide_eq_true_2 _ Hh).
    eexists Continue, _. split_and!; try reflexivity; [auto|].
    intros N. destruct (N Hh).
Qed.

Lemma commands_stay_local_witness :
  exists st',
    round Sample.device Sample.offline Desk.ascii_lower Desk.ui
      (Desk.says "QuIt" true) Desk.start = (Return Break, st') /\
    os st' = os Desk.start /\ net st' = net Desk.start /\
    console st' = console Desk.start.
Proof.
  destruct (commands_stay_local Sample.device Sample.offline Desk.ascii_lower Desk.ui
              (Desk.says "QuIt" true) Desk.start (lit "QuIt") eq_refl)
    as (how & st' & He & Ho & Hn & _ & Hb).
  - vm_compute. apply list_elem_of_further, list_elem_of_here.
  - destruct Hb as [-> Hc]; [vm_compute; discriminate|].
    exists st'. auto.
Defined.







Lemma round_keeps_device E B lower self u st :
  confirmed u <> Return true ->
  os (snd (round E B lower self u st)) = os st.
Proof.
  intros Hc. unfold round, try_, bind, lift.
  destruct (typed u) as [p|e]; simpl.
  - destruct (bool_decide _); [reflexivity|].
    destruct (bool_decide _); [reflexivity|].
    unfold console_print, in_net. simpl.
    destruct (generate_code B (ai_client self) p (net st)) as [[code|e] n']; simpl.
    + destruct (confirmed u) as [[|]|e]; simpl.
      * destruct (Hc eq_refl).
      * reflexivity.
      * destruct (isinstance e KeyboardInterrupt); [reflexivity|].
        destruct (isinstance e Exception); reflexivity.
    + destruct (isinstance e KeyboardInterrupt); [reflexivity|].
      destruct (isinstance e Exception); reflexivity.
  - destruct (isinstance e KeyboardInterrupt); [reflexivity|].
    destruct (isinstance e Exception); reflexivity.
Qed.

Lemma rounds_keep_device E B lower self script :
  Forall (fun u => confirmed u <> Return true) script ->
  forall st, os (snd (rounds E B lower self script st)) = os st.
Proof.
  induction 1 as [|u script Hu _ IH]; intros st; [reflexivity|].
  simpl. unfold bind.
  pose proof (round_keeps_device E B lower self u st Hu) as Hr.
  destruct (round E B lower self u st) as [[how|e] st1]; simpl in *.
  - destruct how; simpl; rewrite ?IH; exact Hr.
  - exact Hr.
Qed.

(** X19.  Nothing is executed without consent: over a whole session in
    which the user never answers the dialog with yes, whatever is typed
    and whatever the backend generates, the device (its files,
    directories and processes) ends as it started. *)
Theorem nothing_runs_without_consent E B lower self script st :
  Forall (fun u => confirmed u <> Return true) script ->
  os (snd (run E B lower self script st)) = os st.
Proof.
  intros H. unfold run, bind, console_print.
  rewrite (rounds_keep_device E B lower self script H). reflexivity.
Qed.

Lemma nothing_runs_without_consent_witness :
  os (snd (run Sample.device (Desk.coder Sample.self_delete) Desk.ascii_lower Desk.ui
             [Desk.says "clean up" false; Desk.ctrl_c; Desk.says "help" false;
              Desk.says "clean up" false]
             Desk.start))
  = os Desk.start.
Proof.
  apply (nothing_runs_without_consent Sample.device (Desk.coder Sample.self_delete)
           Desk.ascii_lower Desk.ui).
  repeat constructor; discriminate.
Defined.







Lemma round_traffic E B lower self u st p :
  typed u = Return p ->
  lower p ∉ [lit "exit"; lit "quit"] ->
  lower p <> lit "help" ->
  net (snd (round E B lower self u st))
  = snd (generate_code B (ai_client self) p (net st)).
Proof.
  intros Ht Hq Hh. unfold round, try_, bind, lift. rewrite Ht.
  rewrite (bool_decide_eq_false_2 _ Hq), (bool_decide_eq_false_2 _ Hh).
  unfold console_print, in_net, in_os. simpl.
  destruct (generate_code B (ai_client self) p (net st)) as [[code|e] n']; simpl.
  - destruct (confirmed u) as [[|]|e]; simpl.
    + destruct (execute_code E (code_executor self) code 30%Q (os st))
        as [[r|e] w']; simpl.
      * destruct (returncode r =? 0)%Z; reflexivity.
      * destruct (isinstance e KeyboardInterrupt); [reflexivity|].
        destruct (isinstance e Exception); reflexivity.
    + reflexivity.
    + destruct (isinstance e KeyboardInterrupt); [reflexivity|].
      destruct (isinstance e Exception); reflexivity.
  - destruct (isinstance e KeyboardInterrupt); [reflexivity|].
    destruct (isinstance e Exception); reflexivity.
Qed.

(** X21.  Every line that is not a command goes to the backend exactly
    as typed, not lower-cased and also when it is empty: when the model
    lookup succeeds, the round adds to the requests sent exactly one
    request, the template around the typed line, however the round then
    goes on. *)
Theorem typed_line_is_sent_as_typed E B lower self u st p m :
  typed u = Return p ->
  lower p ∉ [lit "exit"; lit "quit"] ->
  lower p <> lit "help" ->
  aiplatform_Model B (lit "gemini-1.5-pro") = Return m ->
  sent (net (snd (round E B lower self u st)))
  = sent (net st) ++ [formatted_prompt p].
Proof.
  intros Ht Hq Hh Hm.
  rewrite (round_traffic E B lower self u st p Ht Hq Hh).
  rewrite generate_code_log, Hm. reflexivity.
Qed.

Lemma typed_line_is_sent_as_typed_witness :
  sent (net (snd (round Sample.device (Desk.coder Sample.hello) Desk.ascii_lower
                    Desk.ui (Desk.says "Say HI" false) Desk.start)))
  = [formatted_prompt (lit "Say HI")]
  /\ sent (net (snd (round Sample.device (Desk.coder Sample.hello) Desk.ascii_lower
                       Desk.ui (Desk.says "" false) Desk.start)))
     = [formatted_prompt []].
Proof.
  split.
  - apply (typed_line_is_sent_as_typed Sample.device (Desk.coder Sample.hello)
             Desk.ascii_lower Desk.ui (Desk.says "Say HI" false) Desk.start
             (lit "Say HI") (lit "gemini-1.5-pro")); try reflexivity.
    + rewrite !elem_of_cons, elem_of_nil.
      intros [H|[H|[]]]; vm_compute in H; discriminate H.
    + intros H. vm_compute in H. discriminate H.
  - apply (typed_line_is_sent_as_typed Sample.device (Desk.coder Sample.hello)
             Desk.ascii_lower Desk.ui (Desk.says "" false) Desk.start
             [] (lit "gemini-1.5-pro")); try reflexivity.
    + rewrite !elem_of_cons, elem_of_nil.
      intros [H|[H|[]]]; vm_compute in H; discriminate H.
    + intros H. vm_compute in H. discriminate H.
Defined.

(** X22.  Nothing that follows a leave command is acted on: a session
    ends in the same state, with the same requests sent and the same
    lines printed, whatever the user's script holds after the first
    "exit" or "quit". *)
Theorem nothing_happens_after_leaving E B lower self before u after st :
  leaves lower u = true ->
  run E B lower self (before ++ u :: after) st
  = run E B lower self (before ++ [u]) st.
Proof.
  intros Hu.
  assert (Hround : forall s, round E B lower self u s = (Return Break, s)).
  { intros s. unfold leaves in Hu. unfold round, try_, bind, lift.
    destruct (typed u) as [p|e]; [|discriminate Hu]. rewrite Hu. reflexivity. }
  assert (Hrounds : forall s,
             rounds E B lower self (before ++ u :: after) s
             = rounds E B lower self (before ++ [u]) s).
  { induction before as [|v before IH]; intros s; simpl; unfold bind.
    - rewrite Hround. reflexivity.
    - destruct (round E B lower self v s) as [[how|e] s1]; [|reflexivity].
      destruct how; [reflexivity|apply IH|apply IH]. }
  unfold run, bind, console_print. apply Hrounds.
Qed.

Lemma nothing_happens_after_leaving_witness :
  run Sample.device (Desk.coder Sample.hello) Desk.ascii_lower Desk.ui
    ([Desk.says "help" false] ++ Desk.says "Exit" false
       :: [Desk.says "say hi" true; Desk.says "say hi" true]) Desk.start
  = run Sample.device (Desk.coder Sample.hello) Desk.ascii_lower Desk.ui
      ([Desk.says "help" false] ++ [Desk.says "Exit" false]) Desk.start.
Proof.
  apply (nothing_happens_after_leaving Sample.device (Desk.coder Sample.hello)
           Desk.ascii_lower Desk.ui [Desk.says "help" false]
           (Desk.says "Exit" false)).
  vm_compute. reflexivity.
Defined.
